(** * Ligand parameterization notebooks (biobb_wf_ligand_parameterization)

    A shallow embedding of the tutorial notebooks
    - [notebooks/biobb_wf_ligand_parameterization.ipynb], first document:
      the GROMACS variant (fetch, add hydrogens, minimize, acpype_params_gmx);
    - the same file, second document: the CNS variant (same chain, ending in
      acpype_params_cns followed by shutil.copyfile);
    - [html/biobb_ligand_parameterization_tutorial.web.ipynb]: an executed
      copy of the GROMACS variant without the two Google Colab cells, whose
      recorded outputs document what the building blocks do.

    A notebook is a list of code cells.  A cell is a computation over the
    IPython kernel: the namespace of global variables, the files of the
    working directory and the record of what the run did.  The building
    blocks (biobb_io, biobb_chemistry), nglview and shutil are external to
    the repository; they enter as a [toolchain] of functions of their
    arguments and of the file they read, which either return or raise.
    An import binds the imported name.  Printed text, log lines and the
    return codes a cell echoes are left out; of what a cell displays only the
    widgets are on record. *)

From Stdlib Require Import ZArith String Ascii Floats.
From stdpp Require Import gmap strings list fin_maps.

Local Open Scope string_scope.
Local Open Scope Z_scope.
Local Open Scope list_scope.

(** ** Python values *)

(** The objects the notebooks bind to names: str, int, float, dict with
    string keys, the nglview widget, and what an import statement binds (a
    module, or a function of one), known by its qualified name. *)
Abbreviation content := (list Byte.byte).

Record widget := Widget {
  w_file : string;                                  (* path given to show_structure_file *)
  w_data : content;                                 (* what was read from it *)
  w_reprs : list (string * option string);          (* add_representation(repr_type, selection) *)
  w_remote : list (string * string * list string);  (* _remote_call(name, target, args) *)
  w_camera : string
}.

#[warnings="-register-all"]
Inductive value :=
| VStr (s : string)
| VInt (z : Z)
| VFloat (f : float)
| VDict (d : gmap string value)
| VWidget (w : widget)
| VImported (qualified_name : string).

Abbreviation pydict := (gmap string value).

(** ** Building blocks, calls and the record of a run *)

Inductive block :=
| Ligand | BabelAddHydrogens | BabelMinimize | AcpypeParamsGMX | AcpypeParamsCNS.

(** The keyword arguments of one building-block call. *)
Record call := Call {
  callee : block;
  input_path : option string;
  output_paths : list string;
  properties : pydict
}.

Inductive writer := ByBlock (b : block) | ByCopyfile.

#[global] Instance block_eq_dec : EqDecision block.
Proof. solve_decision. Defined.

#[global] Instance writer_eq_dec : EqDecision writer.
Proof. solve_decision. Defined.

Inductive event :=
| Launch (c : call)                             (* a building block is invoked *)
| Created (w : writer) (p : string) (b : content) (* a file is written *)
| Display (ws : list widget).                   (* the value a cell shows *)

Inductive exn :=
| NameError (x : string)
| TypeError (x : string)
| FileNotFoundError (p : string)
| ValueError (p : string)
| SameFileError (p : string)
| CalledProcessError (cmd : string)
| BlockError (b : block).

(** ** The kernel *)

Record kernel := Kernel {
  ns : gmap string value;    (* global variables *)
  fs : gmap string content;  (* files of the working directory, by relative path *)
  out : list event           (* what the run did so far, oldest first *)
}.

Inductive outcome (A : Type) :=
| Ok (a : A)
| Exc (e : exn).
Arguments Ok {A} a.
Arguments Exc {A} e.

Definition nb (A : Type) : Type := kernel -> outcome A * kernel.

Definition ret {A} (a : A) : nb A := fun k => (Ok a, k).

Definition bind {A B} (m : nb A) (f : A -> nb B) : nb B :=
  fun k => match m k with
           | (Ok a, k') => f a k'
           | (Exc e, k') => (Exc e, k')
           end.

Definition raise {A} (e : exn) : nb A := fun k => (Exc e, k).

Declare Scope nb_scope.
Delimit Scope nb_scope with nb.
Notation "x <- m ;; f" := (bind m (fun x => f))
  (at level 100, m at next level, right associativity) : nb_scope.
Notation "m ;; f" := (bind m (fun _ => f))
  (at level 100, right associativity) : nb_scope.
Local Open Scope nb_scope.

(** [x = v] *)
Definition assign (x : string) (v : value) : nb unit :=
  fun k => (Ok tt, Kernel (<[x := v]> (ns k)) (fs k) (out k)).

(** Reading a variable; an unbound name raises NameError. *)
Definition name (x : string) : nb value :=
  fun k => match ns k !! x with
           | Some v => (Ok v, k)
           | None => (Exc (NameError x), k)
           end.

(** A variable used where a path string is expected. *)
Definition name_str (x : string) : nb string :=
  v <- name x ;;
  match v with
  | VStr s => ret s
  | _ => raise (TypeError x)
  end.

Definition name_dict (x : string) : nb pydict :=
  v <- name x ;;
  match v with
  | VDict d => ret d
  | _ => raise (TypeError x)
  end.

Definition name_widget (x : string) : nb widget :=
  v <- name x ;;
  match v with
  | VWidget w => ret w
  | _ => raise (TypeError x)
  end.

(** [x + 'suffix'] for a str variable [x]. *)
Definition add_str (x : string) (suffix : string) : nb value :=
  s <- name_str x ;; ret (VStr (s +:+ suffix)).

Definition emit (e : event) : nb unit :=
  fun k => (Ok tt, Kernel (ns k) (fs k) (out k ++ [e])).

Definition read_file (p : string) : nb content :=
  fun k => match fs k !! p with
           | Some b => (Ok b, k)
           | None => (Exc (FileNotFoundError p), k)
           end.

Definition create (w : writer) (p : string) (b : content) : nb unit :=
  fun k => (Ok tt, Kernel (ns k) (<[p := b]> (fs k)) (out k ++ [Created w p b])).

(** [import m] *)
Definition import_ (m : string) : nb unit := assign m (VImported m).

(** [from m import x] *)
Definition import_from (m x : string) : nb unit :=
  assign x (VImported (m +:+ "." +:+ x)).

(** try: [m] except FileNotFoundError: [h] *)
Definition try_except_FileNotFoundError {A} (m h : nb A) : nb A :=
  fun k => match m k with
           | (Exc (FileNotFoundError _), k') => h k'
           | r => r
           end.

(** Files written one after the other. *)
Fixpoint create_all (w : writer) (files : list (string * content)) : nb unit :=
  match files with
  | [] => ret tt
  | (p, b) :: rest => create w p b ;; create_all w rest
  end.

(** ** The external tools *)

Record gmx_files := GmxFiles { gro : content; itp : content; gmx_top : content }.
Record cns_files := CnsFiles { inp : content; par : content; cns_top : content }.

(** The order in which a block writes the three files of one call.  The
    notebooks hand the three paths over in a single call and say nothing
    about which is written first: the order belongs to the tool. *)
Inductive emission :=
| Order123 | Order132 | Order213 | Order231 | Order312 | Order321.

Definition in_order {A} (e : emission) (x1 x2 x3 : A) : list A :=
  match e with
  | Order123 => [x1; x2; x3]
  | Order132 => [x1; x3; x2]
  | Order213 => [x2; x1; x3]
  | Order231 => [x2; x3; x1]
  | Order312 => [x3; x1; x2]
  | Order321 => [x3; x2; x1]
  end.

(** How subprocess.run(cmd, check=True) ends: the program returns with exit
    status 0; the program is not installed (FileNotFoundError); it exits
    with another status (CalledProcessError). *)
Inductive run_result := Returned | NotFound | Failed.

(** What the notebooks call but do not define.  A tool is a function of the
    call's arguments and of the content of its input file; [None] stands for
    the call raising.  A call reads the name of what it calls before its
    arguments.  The first five fields are the facts the two Colab cells
    depend on. *)
Record toolchain := Toolchain {
  in_colab : bool;                       (* 'google.colab' in sys.modules *)
  sys_executable : string;               (* sys.executable *)
  program : list string -> run_result;   (* subprocess.run(cmd, check=True) *)
  repo_cloned : bool;                    (* Path(repo_name).exists() *)
  colab_chdir_ok : bool;                 (* os.chdir(...) finds the directory *)
  ligand_api : call -> option content;
  obabel_add_hydrogens : call -> content -> option content;
  obminimize : call -> content -> option content;
  acpype_gmx : call -> content -> option gmx_files;
  acpype_gmx_order : call -> content -> emission;
  acpype_cns : call -> content -> option cns_files;
  acpype_cns_order : call -> content -> emission
}.

Section Blocks.

Variable T : toolchain.

(** subprocess.run(cmd, check=True) *)
Definition subprocess_run (cmd : list string) : nb unit :=
  match program T cmd with
  | Returned => ret tt
  | NotFound => raise (FileNotFoundError (hd "" cmd))
  | Failed => raise (CalledProcessError (hd "" cmd))
  end.

(** biobb_io.api.ligand.ligand(output_pdb_path, properties) *)
Definition ligand (output_pdb_path : string) (properties : pydict) : nb unit :=
  let c := Call Ligand None [output_pdb_path] properties in
  emit (Launch c) ;;
  match ligand_api T c with
  | Some b => create (ByBlock Ligand) output_pdb_path b
  | None => raise (BlockError Ligand)
  end.

(** biobb_chemistry.babelm.babel_add_hydrogens.babel_add_hydrogens *)
Definition babel_add_hydrogens (input_path output_path : string)
           (properties : pydict) : nb unit :=
  let c := Call BabelAddHydrogens (Some input_path) [output_path] properties in
  emit (Launch c) ;;
  src <- read_file input_path ;;
  match obabel_add_hydrogens T c src with
  | Some b => create (ByBlock BabelAddHydrogens) output_path b
  | None => raise (BlockError BabelAddHydrogens)
  end.

(** biobb_chemistry.babelm.babel_minimize.babel_minimize *)
Definition babel_minimize (input_path output_path : string)
           (properties : pydict) : nb unit :=
  let c := Call BabelMinimize (Some input_path) [output_path] properties in
  emit (Launch c) ;;
  src <- read_file input_path ;;
  match obminimize T c src with
  | Some b => create (ByBlock BabelMinimize) output_path b
  | None => raise (BlockError BabelMinimize)
  end.

(** biobb_chemistry.acpype.acpype_params_gmx.acpype_params_gmx.  The block
    moves acpype's results to the three output paths one after the other,
    in an order of its own.  (In the run the executed copy of the notebook
    records, html/biobb_ligand_parameterization_tutorial.web.ipynb output
    lines 880-882, it was IBPparams.top, then IBPparams.itp, then
    IBPparams.gro.) *)
Definition acpype_params_gmx (input_path output_path_gro output_path_itp
           output_path_top : string) (properties : pydict) : nb unit :=
  let c := Call AcpypeParamsGMX (Some input_path)
                [output_path_gro; output_path_itp; output_path_top] properties in
  emit (Launch c) ;;
  src <- read_file input_path ;;
  match acpype_gmx T c src with
  | Some r =>
      create_all (ByBlock AcpypeParamsGMX)
                 (in_order (acpype_gmx_order T c src)
                           (output_path_gro, gro r)
                           (output_path_itp, itp r)
                           (output_path_top, gmx_top r))
  | None => raise (BlockError AcpypeParamsGMX)
  end.

(** biobb_chemistry.acpype.acpype_params_cns.acpype_params_cns, likewise. *)
Definition acpype_params_cns (input_path output_path_inp output_path_par
           output_path_top : string) (properties : pydict) : nb unit :=
  let c := Call AcpypeParamsCNS (Some input_path)
                [output_path_inp; output_path_par; output_path_top] properties in
  emit (Launch c) ;;
  src <- read_file input_path ;;
  match acpype_cns T c src with
  | Some r =>
      create_all (ByBlock AcpypeParamsCNS)
                 (in_order (acpype_cns_order T c src)
                           (output_path_inp, inp r)
                           (output_path_par, par r)
                           (output_path_top, cns_top r))
  | None => raise (BlockError AcpypeParamsCNS)
  end.

End Blocks.

(** shutil.copyfile(src, dst) *)
Definition copyfile (src dst : string) : nb unit :=
  if decide (src = dst) then raise (SameFileError src)
  else b <- read_file src ;; create ByCopyfile dst b.

(** nglview.show_structure_file(path): reads the file into a new widget,
    whose camera starts as nglview's default; a path that names no file
    raises ValueError. *)
Definition show_structure_file (path : string) : nb value :=
  fun k => match fs k !! path with
           | Some b => (Ok (VWidget (Widget path b [] [] "orthographic")), k)
           | None => (Exc (ValueError path), k)
           end.

(** view.add_representation(repr_type=..., selection=...) on the widget bound
    to [x]. *)
Definition add_representation (x : string) (repr_type : string)
           (selection : option string) : nb unit :=
  w <- name_widget x ;;
  assign x (VWidget (Widget (w_file w) (w_data w)
                            (w_reprs w ++ [(repr_type, selection)])
                            (w_remote w) (w_camera w))).

(** view._remote_call(name, target=..., args=...) *)
Definition remote_call (x : string) (fn target : string) (args : list string)
  : nb unit :=
  w <- name_widget x ;;
  assign x (VWidget (Widget (w_file w) (w_data w) (w_reprs w)
                            (w_remote w ++ [(fn, target, args)]) (w_camera w))).

(** view.camera = ... *)
Definition set_camera (x : string) (cam : string) : nb unit :=
  w <- name_widget x ;;
  assign x (VWidget (Widget (w_file w) (w_data w) (w_reprs w) (w_remote w) cam)).

(** A cell ending in the expression [x] shows the widget. *)
Definition display (x : string) : nb unit :=
  w <- name_widget x ;; emit (Display [w]).

(** ipywidgets.HBox([x1, x2, x3]) as the last expression of a cell. *)
Definition display_hbox (x1 x2 x3 : string) : nb unit :=
  w1 <- name_widget x1 ;;
  w2 <- name_widget x2 ;;
  w3 <- name_widget x3 ;;
  emit (Display [w1; w2; w3]).

(** ** The cells *)

(** The three values the user sets in the input cell. *)
Record inputs := Inputs {
  ligandCode : string;
  mol_charge : Z;
  pH : float
}.

Section Cells.

Variable T : toolchain.

(** "Only executed when using google colab".  Outside Colab the cell
    imports sys and does nothing else.  In Colab it asks for conda's
    version; only when conda is not installed (FileNotFoundError, caught)
    does it install condacolab, clone the repository unless it is there, and
    update the environment.  condacolab.install() is taken to return (the
    kernel restart it asks for is not part of a run); the clone and the
    installs leave the notebooks' own directory as it is. *)
Definition cell_colab_install : nb unit :=
  import_ "sys" ;;
  name "sys" ;;
  if in_colab T then
    import_ "subprocess" ;;
    import_from "pathlib" "Path" ;;
    try_except_FileNotFoundError
      (name "subprocess" ;;
       subprocess_run T ["conda"; "-V"])
      (name "subprocess" ;;
       name "sys" ;;
       subprocess_run T [sys_executable T; "-m"; "pip"; "install"; "condacolab"] ;;
       import_ "condacolab" ;;
       name "condacolab" ;;
       assign "repo_URL"
              (VStr "https://github.com/bioexcel/biobb_wf_ligand_parameterization.git") ;;
       name "Path" ;;
       name_str "repo_URL" ;;
       (* Path(repo_URL).name.split('.')[0] *)
       assign "repo_name" (VStr "biobb_wf_ligand_parameterization") ;;
       name "Path" ;;
       name_str "repo_name" ;;
       (if repo_cloned T then ret tt
        else
          name "subprocess" ;;
          subprocess_run T ["mamba"; "install"; "-y"; "git"] ;;
          name "subprocess" ;;
          url <- name_str "repo_URL" ;;
          subprocess_run T ["git"; "clone"; url]) ;;
       v <- add_str "repo_name" "/conda_env/environment.yml" ;;
       assign "env_file_path" v ;;
       name "subprocess" ;;
       env <- name_str "env_file_path" ;;
       subprocess_run T ["mamba"; "env"; "update"; "-n"; "base"; "-f"; env] ;;
       name "subprocess" ;;
       subprocess_run T ["mamba"; "install"; "-y"; "-c"; "conda-forge";
                         "nglview==3.0.8"; "ipywidgets=7.7.2"])
  else ret tt.

(** "Enable widgets for colab" and change the working directory to the
    notebooks' own. *)
Definition cell_colab_widgets : nb unit :=
  name "sys" ;;
  if in_colab T then
    import_from "google.colab" "output" ;;
    name "output" ;;
    import_ "os" ;;
    name "os" ;;
    if colab_chdir_ok T then ret tt
    else raise (FileNotFoundError
                  "biobb_wf_ligand_parameterization/biobb_wf_ligand_parameterization/notebooks")
  else ret tt.

(** import nglview, ipywidgets, os; ligandCode = ...; mol_charge = ...;
    pH = ... *)
Definition cell_inputs (i : inputs) : nb unit :=
  import_ "nglview" ;;
  import_ "ipywidgets" ;;
  import_ "os" ;;
  assign "ligandCode" (VStr (ligandCode i)) ;;
  assign "mol_charge" (VInt (mol_charge i)) ;;
  assign "pH" (VFloat (pH i)).

(** Fetching ligand structure. *)
Definition cell_fetch : nb unit :=
  import_from "biobb_io.api.ligand" "ligand" ;;
  v <- add_str "ligandCode" ".pdb" ;;
  assign "input_structure" v ;;
  code <- name "ligandCode" ;;
  assign "prop" (VDict {[ "ligand_code" := code ]}) ;;
  name "ligand" ;;
  output_pdb_path <- name_str "input_structure" ;;
  properties <- name_dict "prop" ;;
  ligand T output_pdb_path properties.

Definition cell_view_input : nb unit :=
  name "nglview" ;;
  p <- name_str "input_structure" ;;
  v <- show_structure_file p ;;
  assign "view" v ;;
  add_representation "view" "ball+stick" (Some "all") ;;
  remote_call "view" "setSize" "Widget" [""; "300px"] ;;
  set_camera "view" "orthographic" ;;
  display "view".

(** Add hydrogen atoms. *)
Definition cell_add_hydrogens : nb unit :=
  import_from "biobb_chemistry.babelm.babel_add_hydrogens" "babel_add_hydrogens" ;;
  v <- add_str "ligandCode" ".H.mol2" ;;
  assign "output_babel_h" v ;;
  ph <- name "pH" ;;
  assign "prop" (VDict {[ "ph" := ph;
                          "input_format" := VStr "pdb";
                          "output_format" := VStr "mol2" ]}) ;;
  name "babel_add_hydrogens" ;;
  input_path <- name_str "input_structure" ;;
  output_path <- name_str "output_babel_h" ;;
  properties <- name_dict "prop" ;;
  babel_add_hydrogens T input_path output_path properties.

Definition cell_view_h : nb unit :=
  name "nglview" ;;
  p <- name_str "output_babel_h" ;;
  v <- show_structure_file p ;;
  assign "view" v ;;
  add_representation "view" "ball+stick" (Some "all") ;;
  set_camera "view" "orthographic" ;;
  display "view".

(** Energetically minimize the system. *)
Definition cell_minimize : nb unit :=
  import_from "biobb_chemistry.babelm.babel_minimize" "babel_minimize" ;;
  v <- add_str "ligandCode" ".H.min.pdb" ;;
  assign "output_babel_min" v ;;
  assign "prop" (VDict {[ "method" := VStr "sd";
                          "criteria" := VStr "1e-10";
                          "force_field" := VStr "GAFF" ]}) ;;
  name "babel_minimize" ;;
  input_path <- name_str "output_babel_h" ;;
  output_path <- name_str "output_babel_min" ;;
  properties <- name_dict "prop" ;;
  babel_minimize T input_path output_path properties.

Definition cell_view_min : nb unit :=
  name "nglview" ;;
  p <- name_str "output_babel_min" ;;
  v <- show_structure_file p ;;
  assign "view" v ;;
  add_representation "view" "ball+stick" (Some "all") ;;
  remote_call "view" "setSize" "Widget" [""; "300px"] ;;
  set_camera "view" "orthographic" ;;
  display "view".

(** "Show different structures generated (for comparison)" *)
Definition cell_compare : nb unit :=
  name "nglview" ;;
  p1 <- name_str "input_structure" ;;
  v1 <- show_structure_file p1 ;;
  assign "view1" v1 ;;
  add_representation "view1" "ball+stick" None ;;
  remote_call "view1" "setSize" "Widget" ["250px"; "300px"] ;;
  set_camera "view1" "orthographic" ;;
  name "view1" ;;
  name "nglview" ;;
  p2 <- name_str "output_babel_h" ;;
  v2 <- show_structure_file p2 ;;
  assign "view2" v2 ;;
  add_representation "view2" "ball+stick" None ;;
  remote_call "view2" "setSize" "Widget" ["250px"; "300px"] ;;
  set_camera "view2" "orthographic" ;;
  name "view2" ;;
  name "nglview" ;;
  p3 <- name_str "output_babel_min" ;;
  v3 <- show_structure_file p3 ;;
  assign "view3" v3 ;;
  add_representation "view3" "ball+stick" None ;;
  remote_call "view3" "setSize" "Widget" ["250px"; "300px"] ;;
  set_camera "view3" "orthographic" ;;
  name "view3" ;;
  name "ipywidgets" ;;
  display_hbox "view1" "view2" "view3".

(** Generating ligand parameters, GROMACS. *)
Definition cell_acpype_gmx : nb unit :=
  import_from "biobb_chemistry.acpype.acpype_params_gmx" "acpype_params_gmx" ;;
  v <- add_str "ligandCode" "params.gro" ;;
  assign "output_acpype_gro" v ;;
  v <- add_str "ligandCode" "params.itp" ;;
  assign "output_acpype_itp" v ;;
  v <- add_str "ligandCode" "params.top" ;;
  assign "output_acpype_top" v ;;
  v <- add_str "ligandCode" "params" ;;
  assign "output_acpype" v ;;
  basename <- name "output_acpype" ;;
  charge <- name "mol_charge" ;;
  assign "prop" (VDict {[ "basename" := basename; "charge" := charge ]}) ;;
  name "acpype_params_gmx" ;;
  input_path <- name_str "output_babel_min" ;;
  output_path_gro <- name_str "output_acpype_gro" ;;
  output_path_itp <- name_str "output_acpype_itp" ;;
  output_path_top <- name_str "output_acpype_top" ;;
  properties <- name_dict "prop" ;;
  acpype_params_gmx T input_path output_path_gro output_path_itp
                    output_path_top properties.

Definition cell_view_gro : nb unit :=
  name "nglview" ;;
  p <- name_str "output_acpype_gro" ;;
  v <- show_structure_file p ;;
  assign "view" v ;;
  add_representation "view" "ball+stick" (Some "all") ;;
  remote_call "view" "setSize" "Widget" [""; "300px"] ;;
  set_camera "view" "orthographic" ;;
  display "view".

(** Generating ligand parameters, CNS; the coordinate file of the bundle
    is copied from the minimized structure. *)
Definition cell_acpype_cns : nb unit :=
  import_ "shutil" ;;
  import_from "biobb_chemistry.acpype.acpype_params_cns" "acpype_params_cns" ;;
  v <- add_str "ligandCode" "params.inp" ;;
  assign "output_acpype_inp" v ;;
  v <- add_str "ligandCode" "params.par" ;;
  assign "output_acpype_par" v ;;
  v <- add_str "ligandCode" "params.top" ;;
  assign "output_acpype_top" v ;;
  v <- add_str "ligandCode" "params.pdb" ;;
  assign "output_acpype_pdb" v ;;
  v <- add_str "ligandCode" "params" ;;
  assign "output_acpype" v ;;
  basename <- name "output_acpype" ;;
  charge <- name "mol_charge" ;;
  assign "prop" (VDict {[ "basename" := basename; "charge" := charge ]}) ;;
  name "acpype_params_cns" ;;
  input_path <- name_str "output_babel_min" ;;
  output_path_inp <- name_str "output_acpype_inp" ;;
  output_path_par <- name_str "output_acpype_par" ;;
  output_path_top <- name_str "output_acpype_top" ;;
  properties <- name_dict "prop" ;;
  acpype_params_cns T input_path output_path_inp output_path_par
                    output_path_top properties ;;
  name "shutil" ;;
  src <- name_str "output_babel_min" ;;
  dst <- name_str "output_acpype_pdb" ;;
  copyfile src dst.

Definition cell_view_cns_pdb : nb unit :=
  name "nglview" ;;
  p <- name_str "output_acpype_pdb" ;;
  v <- show_structure_file p ;;
  assign "view" v ;;
  add_representation "view" "ball+stick" (Some "all") ;;
  remote_call "view" "setSize" "Widget" [""; "300px"] ;;
  set_camera "view" "orthographic" ;;
  display "view".

End Cells.

(** ** Notebooks and their execution *)

Inductive cell_kind := Setup | Parameters | Pipeline | Visualization.

Record cell := Cell { kind : cell_kind; body : nb unit }.

Inductive variant := GMX | CNS.

(** The two cells for Google Colab that open the GROMACS notebook. *)
Definition setup_cells (T : toolchain) : list cell :=
  [ Cell Setup (cell_colab_install T);
    Cell Setup (cell_colab_widgets T) ].

Definition gmx_notebook (T : toolchain) (i : inputs) : list cell :=
  [ Cell Setup (cell_colab_install T);
    Cell Setup (cell_colab_widgets T);
    Cell Parameters (cell_inputs i);
    Cell Pipeline (cell_fetch T);
    Cell Visualization cell_view_input;
    Cell Pipeline (cell_add_hydrogens T);
    Cell Visualization cell_view_h;
    Cell Pipeline (cell_minimize T);
    Cell Visualization cell_view_min;
    Cell Visualization cell_compare;
    Cell Pipeline (cell_acpype_gmx T);
    Cell Visualization cell_view_gro ].

(** The executed copy under html/ has the cells of the GROMACS variant
    without the two Colab cells. *)
Definition web_notebook (T : toolchain) (i : inputs) : list cell :=
  drop 2 (gmx_notebook T i).

Definition cns_notebook (T : toolchain) (i : inputs) : list cell :=
  [ Cell Parameters (cell_inputs i);
    Cell Pipeline (cell_fetch T);
    Cell Visualization cell_view_input;
    Cell Pipeline (cell_add_hydrogens T);
    Cell Visualization cell_view_h;
    Cell Pipeline (cell_minimize T);
    Cell Visualization cell_view_min;
    Cell Visualization cell_compare;
    Cell Pipeline (cell_acpype_cns T);
    Cell Visualization cell_view_cns_pdb ].

Definition notebook (v : variant) (T : toolchain) (i : inputs) : list cell :=
  match v with
  | GMX => gmx_notebook T i
  | CNS => cns_notebook T i
  end.

(** The cells from the input cell on. *)
Definition pipeline_cells (v : variant) (T : toolchain) (i : inputs) : list cell :=
  match v with
  | GMX => web_notebook T i
  | CNS => cns_notebook T i
  end.

(** The values the notebooks ship with. *)
#[warnings="-inexact-float"]
Definition gmx_defaults : inputs := Inputs "IBP" (-1) 7.4%float.
#[warnings="-inexact-float"]
Definition cns_defaults : inputs := Inputs "G39" 0 7.4%float.

Inductive status :=
| Completed
| Halted (at_cell : nat) (e : exn).

(** Running the cells top to bottom; the first exception stops the run.
    [n] counts the cells already executed. *)
Fixpoint run_from (n : nat) (cells : list cell) (k : kernel) : status * kernel :=
  match cells with
  | [] => (Completed, k)
  | c :: rest =>
      match body c k with
      | (Ok _, k') => run_from (S n) rest k'
      | (Exc e, k') => (Halted n e, k')
      end
  end.

Definition run_all (cells : list cell) (ns0 : gmap string value)
           (fs0 : gmap string content) : status * kernel :=
  run_from 0 cells (Kernel ns0 fs0 []).

(** How the two Colab cells end, run on their own. *)
Definition setup_status (T : toolchain) : status :=
  (run_all (setup_cells T) ∅ ∅).1.

(** A run that no building block stopped. *)
Definition setup_exn (s : status) : Prop :=
  match s with
  | Halted _ (BlockError _) => False
  | _ => True
  end.

(** The notebook without its visualization cells. *)
Definition is_visualization (c : cell) : bool :=
  match kind c with Visualization => true | _ => false end.

Definition strip_visualization (cells : list cell) : list cell :=
  filter (fun c => is_visualization c = false) cells.

(** ** Reading the record of a run *)

Definition launch_of (e : event) : option call :=
  match e with Launch c => Some c | _ => None end.

Definition created_of (e : event) : option (writer * string * content) :=
  match e with Created w p b => Some (w, p, b) | _ => None end.

(** The building-block calls of a run, in order. *)
Definition launches (l : list event) : list call := omap launch_of l.

(** The files a run wrote, in order, with who wrote them. *)
Definition creations (l : list event) : list (writer * string * content) :=
  omap created_of l.

Definition created_paths (l : list event) : list string :=
  (fun x => x.1.2) <$> creations l.

(** What stopped a run, without the position of the cell. *)
Definition stopped_by (s : status) : option exn :=
  match s with Completed => None | Halted _ e => Some e end.

(** ** The chain the system overview describes *)

(** The calls of the four pipeline steps, as the overview lists them: the
    fetcher writes <code>.pdb; each later step reads the file the step
    before it wrote. *)
Definition fetch_call (i : inputs) : call :=
  Call Ligand None [ligandCode i +:+ ".pdb"]
       {[ "ligand_code" := VStr (ligandCode i) ]}.

Definition add_hydrogens_call (i : inputs) : call :=
  Call BabelAddHydrogens (Some (ligandCode i +:+ ".pdb"))
       [ligandCode i +:+ ".H.mol2"]
       {[ "ph" := VFloat (pH i);
          "input_format" := VStr "pdb";
          "output_format" := VStr "mol2" ]}.

Definition minimize_call (i : inputs) : call :=
  Call BabelMinimize (Some (ligandCode i +:+ ".H.mol2"))
       [ligandCode i +:+ ".H.min.pdb"]
       {[ "method" := VStr "sd";
          "criteria" := VStr "1e-10";
          "force_field" := VStr "GAFF" ]}.

Definition acpype_gmx_call (i : inputs) : call :=
  Call AcpypeParamsGMX (Some (ligandCode i +:+ ".H.min.pdb"))
       [ligandCode i +:+ "params.gro"; ligandCode i +:+ "params.itp";
        ligandCode i +:+ "params.top"]
       {[ "basename" := VStr (ligandCode i +:+ "params");
          "charge" := VInt (mol_charge i) ]}.

Definition acpype_cns_call (i : inputs) : call :=
  Call AcpypeParamsCNS (Some (ligandCode i +:+ ".H.min.pdb"))
       [ligandCode i +:+ "params.inp"; ligandCode i +:+ "params.par";
        ligandCode i +:+ "params.top"]
       {[ "basename" := VStr (ligandCode i +:+ "params");
          "charge" := VInt (mol_charge i) ]}.

Definition generator (v : variant) : block :=
  match v with GMX => AcpypeParamsGMX | CNS => AcpypeParamsCNS end.

Definition generator_call (v : variant) (i : inputs) : call :=
  match v with GMX => acpype_gmx_call i | CNS => acpype_cns_call i end.

Definition pipeline_blocks (v : variant) : list block :=
  [Ligand; BabelAddHydrogens; BabelMinimize; generator v].

Definition pipeline_calls (v : variant) (i : inputs) : list call :=
  [fetch_call i; add_hydrogens_call i; minimize_call i; generator_call v i].

(** Position, in the notebook, of the cell holding pipeline step [j]: the
    input cell comes first, two Colab cells precede it in the GROMACS
    notebook, and visualization cells sit between the steps. *)
Definition step_offset (j : nat) : nat :=
  match j with 0 => 1 | 1 => 3 | 2 => 5 | _ => 8 end%nat.

Definition first_cell (v : variant) : nat :=
  match v with GMX => 2 | CNS => 0 end%nat.

Definition step_cell (v : variant) (j : nat) : nat :=
  (step_offset j + first_cell v)%nat.

(** What an observer of the run keeps: how it ended, the files, the calls
    made and the files written. *)
Record summary := Summary {
  s_status : status;
  s_fs : gmap string content;
  s_launches : list call;
  s_creations : list (writer * string * content)
}.

Definition summarize (r : status * kernel) : summary :=
  Summary r.1 (fs r.2) (launches (out r.2)) (creations (out r.2)).

(** The files of [files] written one after the other over [fl], and the
    record [w] leaves of writing them. *)
Fixpoint write_files (files : list (string * content))
         (fl : gmap string content) : gmap string content :=
  match files with
  | [] => fl
  | (p, b) :: rest => write_files rest (<[p := b]> fl)
  end.

Definition written (w : writer) (files : list (string * content))
  : list (writer * string * content) :=
  (fun pb => (w, pb.1, pb.2)) <$> files.

(** The overview's strictly linear pipeline, following the spec's words and
    written without cells or variables, to compare the notebooks with.  Each
    step is one tool invocation on the file the previous step produced; a
    failure ends the chain.  The parameter generator writes its three files
    in the order its tool does.  [base] is the position of the input
    cell. *)
Definition chain (v : variant) (base : nat) (T : toolchain) (i : inputs)
           (fs0 : gmap string content) : summary :=
  let c := ligandCode i in
  match ligand_api T (fetch_call i) with
  | None => Summary (Halted (step_offset 0 + base)%nat (BlockError Ligand)) fs0 [fetch_call i] []
  | Some b1 =>
    let fs1 := <[c +:+ ".pdb" := b1]> fs0 in
    let cr1 := [(ByBlock Ligand, c +:+ ".pdb", b1)] in
    match obabel_add_hydrogens T (add_hydrogens_call i) b1 with
    | None =>
        Summary (Halted (step_offset 1 + base)%nat (BlockError BabelAddHydrogens)) fs1
                [fetch_call i; add_hydrogens_call i] cr1
    | Some b2 =>
      let fs2 := <[c +:+ ".H.mol2" := b2]> fs1 in
      let cr2 := cr1 ++ [(ByBlock BabelAddHydrogens, c +:+ ".H.mol2", b2)] in
      match obminimize T (minimize_call i) b2 with
      | None =>
          Summary (Halted (step_offset 2 + base)%nat (BlockError BabelMinimize)) fs2
                  [fetch_call i; add_hydrogens_call i; minimize_call i] cr2
      | Some b3 =>
        let fs3 := <[c +:+ ".H.min.pdb" := b3]> fs2 in
        let cr3 := cr2 ++ [(ByBlock BabelMinimize, c +:+ ".H.min.pdb", b3)] in
        match v with
        | GMX =>
            match acpype_gmx T (acpype_gmx_call i) b3 with
            | None =>
                Summary (Halted (step_offset 3 + base)%nat (BlockError AcpypeParamsGMX)) fs3
                        (pipeline_calls GMX i) cr3
            | Some r =>
                let files := in_order (acpype_gmx_order T (acpype_gmx_call i) b3)
                                      (c +:+ "params.gro", gro r)
                                      (c +:+ "params.itp", itp r)
                                      (c +:+ "params.top", gmx_top r) in
                Summary Completed
                  (write_files files fs3)
                  (pipeline_calls GMX i)
                  (cr3 ++ written (ByBlock AcpypeParamsGMX) files)
            end
        | CNS =>
            match acpype_cns T (acpype_cns_call i) b3 with
            | None =>
                Summary (Halted (step_offset 3 + base)%nat (BlockError AcpypeParamsCNS)) fs3
                        (pipeline_calls CNS i) cr3
            | Some r =>
                let files := in_order (acpype_cns_order T (acpype_cns_call i) b3)
                                      (c +:+ "params.inp", inp r)
                                      (c +:+ "params.par", par r)
                                      (c +:+ "params.top", cns_top r) in
                Summary Completed
                  (<[c +:+ "params.pdb" := b3]> (write_files files fs3))
                  (pipeline_calls CNS i)
                  (cr3 ++ written (ByBlock AcpypeParamsCNS) files
                       ++ [(ByCopyfile, c +:+ "params.pdb", b3)])
            end
        end
      end
    end
  end.

(** The Colab cells of the GROMACS notebook come before the chain: when
    one of them stops the run nothing has been called or written. *)
Definition expected (v : variant) (T : toolchain) (i : inputs)
           (fs0 : gmap string content) : summary :=
  match v with
  | CNS => chain CNS 0 T i fs0
  | GMX =>
      match setup_status T with
      | Completed => chain GMX 2 T i fs0
      | Halted n e => Summary (Halted n e) fs0 [] []
      end
  end.

(** ** Vocabulary of the claims *)

(** Adjacent elements of a list are related. *)
Fixpoint adjacent {A} (R : A -> A -> Prop) (l : list A) : Prop :=
  match l with
  | a :: (b :: _) as rest => R a b /\ adjacent R rest
  | _ => True
  end.

(** Step N feeds step N+1: the one file N was told to write is the file N+1
    was told to read. *)
Definition feeds (c1 c2 : call) : Prop :=
  exists p, output_paths c1 = [p] /\ input_path c2 = Some p.

(** Every file a block wrote is one of the output paths it was launched
    with. *)
Definition writes_as_told (l : list event) : Prop :=
  Forall (fun x : writer * string * content =>
            match x.1.1 with
            | ByBlock b =>
                exists c, c ∈ launches l /\ callee c = b /\ x.1.2 ∈ output_paths c
            | ByCopyfile => True
            end) (creations l).

(** File names of a run for ligand code [c]. *)
Definition structure_names (c : string) : list (writer * string) :=
  [ (ByBlock Ligand, c +:+ ".pdb");
    (ByBlock BabelAddHydrogens, c +:+ ".H.mol2");
    (ByBlock BabelMinimize, c +:+ ".H.min.pdb") ].

Definition bundle_paths (v : variant) (c : string) : list string :=
  match v with
  | GMX => [c +:+ "params.gro"; c +:+ "params.itp"; c +:+ "params.top"]
  | CNS => [c +:+ "params.inp"; c +:+ "params.par"; c +:+ "params.top";
            c +:+ "params.pdb"]
  end.

(** The files step [b] is to produce. *)
Definition step_outputs (c : string) (b : block) : list string :=
  match b with
  | Ligand => [c +:+ ".pdb"]
  | BabelAddHydrogens => [c +:+ ".H.mol2"]
  | BabelMinimize => [c +:+ ".H.min.pdb"]
  | AcpypeParamsGMX => bundle_paths GMX c
  | AcpypeParamsCNS => bundle_paths CNS c
  end.

(** The names a visualization cell binds, and the names the pipeline cells
    bind and read. *)
Definition widget_names : list string := ["view"; "view1"; "view2"; "view3"].

Definition pipeline_variables : list string :=
  [ "ligandCode"; "mol_charge"; "pH"; "input_structure"; "output_babel_h";
    "output_babel_min"; "output_acpype_gro"; "output_acpype_itp";
    "output_acpype_top"; "output_acpype_inp"; "output_acpype_par";
    "output_acpype_pdb"; "output_acpype"; "prop" ].

(** A computation that leaves the pipeline alone: same files, same calls and
    writes on record, same values of every variable but the widgets. *)
Definition frames {A} (m : nb A) : Prop :=
  forall k,
    fs (m k).2 = fs k /\
    launches (out (m k).2) = launches (out k) /\
    creations (out (m k).2) = creations (out k) /\
    forall x, x ∉ widget_names -> ns (m k).2 !! x = ns k !! x.

(** Chemical file format by file name: the text after the last dot. *)
Fixpoint extension (p : string) : option string :=
  match p with
  | EmptyString => None
  | String a rest =>
      match extension rest with
      | Some e => Some e
      | None => if Ascii.eqb a "." then Some rest else None
      end
  end.

(** Format of the file a call produces: its extension, which a declared
    output_format has to agree with. *)
Definition output_format (c : call) : option string :=
  match output_paths c with
  | [p] =>
      match properties c !! "output_format" with
      | Some (VStr f) => if decide (extension p = Some f) then Some f else None
      | Some _ => None
      | None => extension p
      end
  | _ => None
  end.

(** Format a call takes its input file to have: declared, else inferred from
    the extension. *)
Definition input_format (c : call) : option string :=
  match input_path c with
  | Some p =>
      match properties c !! "input_format" with
      | Some (VStr f) => Some f
      | Some _ => None
      | None => extension p
      end
  | None => None
  end.

Definition format_compatible (c1 c2 : call) : Prop :=
  exists f, output_format c1 = Some f /\ input_format c2 = Some f.

(** ** A toy toolchain to run the notebooks on *)

(** Outside Colab; every tool returns its input with one more byte; the
    GROMACS bundle is written in the order the executed copy of the notebook
    records (top, itp, gro). *)
Definition toy_tools : toolchain :=
  {| in_colab := false;
     sys_executable := "python3";
     program := fun _ => Returned;
     repo_cloned := false;
     colab_chdir_ok := true;
     ligand_api := fun _ => Some [Byte.x41];
     obabel_add_hydrogens := fun _ src => Some (src ++ [Byte.x48]);
     obminimize := fun _ src => Some (src ++ [Byte.x6d]);
     acpype_gmx := fun _ src =>
       Some (GmxFiles (src ++ [Byte.x67]) (src ++ [Byte.x69]) (src ++ [Byte.x74]));
     acpype_gmx_order := fun _ _ => Order321;
     acpype_cns := fun _ src =>
       Some (CnsFiles (src ++ [Byte.x6e]) (src ++ [Byte.x70]) (src ++ [Byte.x74]));
     acpype_cns_order := fun _ _ => Order123 |}.

(** The same with a minimizer that raises. *)
Definition toy_tools_no_minimizer : toolchain :=
  {| in_colab := false;
     sys_executable := "python3";
     program := fun _ => Returned;
     repo_cloned := false;
     colab_chdir_ok := true;
     ligand_api := ligand_api toy_tools;
     obabel_add_hydrogens := obabel_add_hydrogens toy_tools;
     obminimize := fun _ _ => None;
     acpype_gmx := acpype_gmx toy_tools;
     acpype_gmx_order := acpype_gmx_order toy_tools;
     acpype_cns := acpype_cns toy_tools;
     acpype_cns_order := acpype_cns_order toy_tools |}.

(** Two runs left the same artifacts: they stopped the same way and agree
    on the files, the calls and the writes. *)
Definition same_artifacts (s e : summary) : Prop :=
  stopped_by (s_status s) = stopped_by (s_status e) /\
  s_fs s = s_fs e /\
  s_launches s = s_launches e /\
  s_creations s = s_creations e.

(** Who writes which file of the bundle. *)
Definition bundle_writers (v : variant) (c : string) : list (writer * string) :=
  match v with
  | GMX => [ (ByBlock AcpypeParamsGMX, c +:+ "params.gro");
             (ByBlock AcpypeParamsGMX, c +:+ "params.itp");
             (ByBlock AcpypeParamsGMX, c +:+ "params.top") ]
  | CNS => [ (ByBlock AcpypeParamsCNS, c +:+ "params.inp");
             (ByBlock AcpypeParamsCNS, c +:+ "params.par");
             (ByBlock AcpypeParamsCNS, c +:+ "params.top");
             (ByCopyfile, c +:+ "params.pdb") ]
  end.

(** The parameter generator wrote every file of the bundle. *)
Definition generator_writes_bundle (v : variant) (r : status * kernel)
           (c : string) : Prop :=
  Forall (fun p => exists b, (ByBlock (generator v), p, b) ∈ creations (out r.2))
         (bundle_paths v c).




(** ** Namespaces as lists of assignments *)

(** The namespace after the assignments of [l], latest first, over [m]. *)
Fixpoint binds (l : list (string * value)) (m : gmap string value)
  : gmap string value :=
  match l with
  | [] => m
  | (x, v) :: l' => <[x := v]> (binds l' m)
  end.

(** The latest value assigned to [x] in [l]. *)
Fixpoint assoc (x : string) (l : list (string * value)) : option value :=
  match l with
  | [] => None
  | (y, v) :: l' => if String.eqb x y then Some v else assoc x l'
  end.

(** ** Vocabulary of the further properties *)


Definition display_of (e : event) : option (list widget) :=
  match e with Display ws => Some ws | _ => None end.

(** What the cells of a run showed, in order. *)
Definition displays (l : list event) : list (list widget) := omap display_of l.

(** The file a widget shows and the bytes it shows of it. *)
Definition shown (w : widget) : string * content := (w_file w, w_data w).





(** A computation that binds no name outside [N]. *)
Definition binds_only {A} (N : list string) (m : nb A) : Prop :=
  forall k x, x ∉ N -> ns (m k).2 !! x = ns k !! x.


(** The variables that hold paths of files, with the path each holds after
    a completed run. *)
Definition path_variables (v : variant) (c : string) : list (string * string) :=
  [ ("input_structure", c +:+ ".pdb");
    ("output_babel_h", c +:+ ".H.mol2");
    ("output_babel_min", c +:+ ".H.min.pdb");
    ("output_acpype_top", c +:+ "params.top") ] ++
  match v with
  | GMX => [ ("output_acpype_gro", c +:+ "params.gro");
             ("output_acpype_itp", c +:+ "params.itp") ]
  | CNS => [ ("output_acpype_inp", c +:+ "params.inp");
             ("output_acpype_par", c +:+ "params.par");
             ("output_acpype_pdb", c +:+ "params.pdb") ]
  end.

(** The file the last cell of a notebook shows. *)
Definition last_shown (v : variant) (c : string) : string :=
  match v with
  | GMX => c +:+ "params.gro"
  | CNS => c +:+ "params.pdb"
  end.

(** What a kernel shows and binds at the end of a completed run: every
    display shows a file with the bytes it holds, in the order of the cells;
    every widget is set to the orthographic camera and the ball+stick
    representation; every path variable names a file that exists; the last
    option dictionary and the inputs are as the cells set them. *)
Definition shows_and_binds (v : variant) (i : inputs) (k : kernel) : Prop :=
  let c := ligandCode i in
  (exists b1 b2 b3 b4,
     fs k !! (c +:+ ".pdb") = Some b1 /\
     fs k !! (c +:+ ".H.mol2") = Some b2 /\
     fs k !! (c +:+ ".H.min.pdb") = Some b3 /\
     fs k !! last_shown v c = Some b4 /\
     (fun ws : list widget => shown <$> ws) <$> displays (out k) =
       [ [(c +:+ ".pdb", b1)]; [(c +:+ ".H.mol2", b2)];
         [(c +:+ ".H.min.pdb", b3)];
         [(c +:+ ".pdb", b1); (c +:+ ".H.mol2", b2); (c +:+ ".H.min.pdb", b3)];
         [(last_shown v c, b4)] ]) /\
  Forall (Forall (fun w => w_camera w = "orthographic" /\
                           (fun x : string * option string => x.1) <$> w_reprs w = ["ball+stick"]))
         (displays (out k)) /\
  Forall (fun xp => ns k !! xp.1 = Some (VStr xp.2) /\ is_Some (fs k !! xp.2))
         (path_variables v c) /\
  ns k !! "output_acpype" = Some (VStr (c +:+ "params")) /\
  ns k !! "prop" = Some (VDict (properties (generator_call v i))) /\
  ns k !! "ligandCode" = Some (VStr c) /\
  ns k !! "mol_charge" = Some (VInt (mol_charge i)) /\
  ns k !! "pH" = Some (VFloat (pH i)).

(** * Proofs *)

(** ** Paths and formats *)

Lemma path_ne (c s1 s2 : string) : s1 ≠ s2 -> c +:+ s1 ≠ c +:+ s2.
Proof. intros Hne H. apply Hne. by apply (inj (String.app c)). Qed.

Lemma extension_app (c s e : string) :
  extension s = Some e -> extension (c +:+ s) = Some e.
Proof.
  intros Hs. induction c as [|a c IH]; [done|].
  change (extension (String a c +:+ s)) with
    (match extension (c +:+ s) with
     | Some e' => Some e'
     | None => if Ascii.eqb a "." then Some (c +:+ s) else None
     end).
  by rewrite IH.
Qed.

(** ** One rule per operation of the kernel *)

Section Rules.

Context {A B : Type}.

Lemma bind_step (m : nb A) (f : A -> nb B) k res r :
  m k = res ->
  match res with
  | (Ok a, k1) => f a k1
  | (Exc e, k1) => (Exc e, k1)
  end = r ->
  bind m f k = r.
Proof. intros <- <-. unfold bind. by destruct (m k) as [[a|e] k1]. Qed.

Lemma bind_ok (m : nb A) (f : A -> nb B) k a k1 :
  m k = (Ok a, k1) -> bind m f k = f a k1.
Proof. intros Hm. unfold bind. by rewrite Hm. Qed.

End Rules.

Lemma name_ok x v n f o :
  n !! x = Some v -> name x (Kernel n f o) = (Ok v, Kernel n f o).
Proof. intros H. unfold name. cbn [ns]. by rewrite H. Qed.

Lemma name_str_ok x s n f o :
  n !! x = Some (VStr s) -> name_str x (Kernel n f o) = (Ok s, Kernel n f o).
Proof. intros H. unfold name_str. by rewrite (bind_ok _ _ _ _ _ (name_ok _ _ _ _ _ H)). Qed.

Lemma name_dict_ok x d n f o :
  n !! x = Some (VDict d) -> name_dict x (Kernel n f o) = (Ok d, Kernel n f o).
Proof. intros H. unfold name_dict. by rewrite (bind_ok _ _ _ _ _ (name_ok _ _ _ _ _ H)). Qed.

Lemma name_widget_ok x w n f o :
  n !! x = Some (VWidget w) -> name_widget x (Kernel n f o) = (Ok w, Kernel n f o).
Proof. intros H. unfold name_widget. by rewrite (bind_ok _ _ _ _ _ (name_ok _ _ _ _ _ H)). Qed.

Lemma add_str_ok x suffix s n f o :
  n !! x = Some (VStr s) ->
  add_str x suffix (Kernel n f o) = (Ok (VStr (s +:+ suffix)), Kernel n f o).
Proof. intros H. unfold add_str. by rewrite (bind_ok _ _ _ _ _ (name_str_ok _ _ _ _ _ H)). Qed.

Lemma read_file_ok p b n f o :
  f !! p = Some b -> read_file p (Kernel n f o) = (Ok b, Kernel n f o).
Proof. intros H. unfold read_file. cbn [fs]. by rewrite H. Qed.

Lemma show_structure_file_ok p b n f o :
  f !! p = Some b ->
  show_structure_file p (Kernel n f o) =
  (Ok (VWidget (Widget p b [] [] "orthographic")), Kernel n f o).
Proof. intros H. unfold show_structure_file. cbn [fs]. by rewrite H. Qed.

Lemma add_representation_ok x t sel p d rs rm cam n f o :
  n !! x = Some (VWidget (Widget p d rs rm cam)) ->
  add_representation x t sel (Kernel n f o) =
  (Ok tt, Kernel (<[x := VWidget (Widget p d (rs ++ [(t, sel)]) rm cam)]> n) f o).
Proof.
  intros H. unfold add_representation.
  by rewrite (bind_ok _ _ _ _ _ (name_widget_ok _ _ _ _ _ H)).
Qed.

Lemma remote_call_ok x fn target args p d rs rm cam n f o :
  n !! x = Some (VWidget (Widget p d rs rm cam)) ->
  remote_call x fn target args (Kernel n f o) =
  (Ok tt, Kernel (<[x := VWidget (Widget p d rs (rm ++ [(fn, target, args)]) cam)]> n)
                 f o).
Proof.
  intros H. unfold remote_call.
  by rewrite (bind_ok _ _ _ _ _ (name_widget_ok _ _ _ _ _ H)).
Qed.

Lemma set_camera_ok x cam' p d rs rm cam n f o :
  n !! x = Some (VWidget (Widget p d rs rm cam)) ->
  set_camera x cam' (Kernel n f o) =
  (Ok tt, Kernel (<[x := VWidget (Widget p d rs rm cam')]> n) f o).
Proof.
  intros H. unfold set_camera.
  by rewrite (bind_ok _ _ _ _ _ (name_widget_ok _ _ _ _ _ H)).
Qed.

Lemma display_ok x w n f o :
  n !! x = Some (VWidget w) ->
  display x (Kernel n f o) = (Ok tt, Kernel n f (o ++ [Display [w]])).
Proof.
  intros H. unfold display.
  by rewrite (bind_ok _ _ _ _ _ (name_widget_ok _ _ _ _ _ H)).
Qed.

Lemma display_hbox_ok x1 x2 x3 w1 w2 w3 n f o :
  n !! x1 = Some (VWidget w1) ->
  n !! x2 = Some (VWidget w2) ->
  n !! x3 = Some (VWidget w3) ->
  display_hbox x1 x2 x3 (Kernel n f o) =
  (Ok tt, Kernel n f (o ++ [Display [w1; w2; w3]])).
Proof.
  intros H1 H2 H3. unfold display_hbox.
  rewrite (bind_ok _ _ _ _ _ (name_widget_ok _ _ _ _ _ H1)).
  rewrite (bind_ok _ _ _ _ _ (name_widget_ok _ _ _ _ _ H2)).
  by rewrite (bind_ok _ _ _ _ _ (name_widget_ok _ _ _ _ _ H3)).
Qed.

Lemma copyfile_ok src dst b n f o :
  src ≠ dst -> f !! src = Some b ->
  copyfile src dst (Kernel n f o) =
  (Ok tt, Kernel n (<[dst := b]> f) (o ++ [Created ByCopyfile dst b])).
Proof.
  intros Hne H. unfold copyfile. rewrite decide_False by done.
  by rewrite (bind_ok _ _ _ _ _ (read_file_ok _ _ _ _ _ H)).
Qed.

Lemma create_all_ok w files vs fl lg :
  create_all w files (Kernel vs fl lg) =
  (Ok tt, Kernel vs (write_files files fl)
                 (lg ++ ((fun pb => Created w pb.1 pb.2) <$> files))).
Proof.
  revert fl lg. induction files as [|[p b] files IH]; intros fl lg.
  - cbn. by rewrite app_nil_r.
  - cbn [create_all write_files fmap list_fmap fst snd].
    unfold bind, create at 1. cbn [ns fs out]. rewrite IH.
    by rewrite <- app_assoc.
Qed.

(** Reading a file after a block wrote its three: each path holds what was
    written to it, whatever the order, and any other path holds what it
    held. *)
Section WrittenInOrder.

Context (e : emission) (p1 p2 p3 : string) (b1 b2 b3 : content).
Context (fl : gmap string content).

Let fl' := write_files (in_order e (p1, b1) (p2, b2) (p3, b3)) fl.

Lemma lookup_written_1 : p1 ≠ p2 -> p1 ≠ p3 -> fl' !! p1 = Some b1.
Proof.
  intros H12 H13. subst fl'. destruct e; cbn [in_order write_files];
    by repeat first [ rewrite lookup_insert_eq
                    | rewrite lookup_insert_ne by congruence ].
Qed.

Lemma lookup_written_2 : p2 ≠ p1 -> p2 ≠ p3 -> fl' !! p2 = Some b2.
Proof.
  intros H21 H23. subst fl'. destruct e; cbn [in_order write_files];
    by repeat first [ rewrite lookup_insert_eq
                    | rewrite lookup_insert_ne by congruence ].
Qed.

Lemma lookup_written_3 : p3 ≠ p1 -> p3 ≠ p2 -> fl' !! p3 = Some b3.
Proof.
  intros H31 H32. subst fl'. destruct e; cbn [in_order write_files];
    by repeat first [ rewrite lookup_insert_eq
                    | rewrite lookup_insert_ne by congruence ].
Qed.

Lemma lookup_written_ne p :
  p ≠ p1 -> p ≠ p2 -> p ≠ p3 -> fl' !! p = fl !! p.
Proof.
  intros H1 H2 H3. subst fl'. destruct e; cbn [in_order write_files];
    by rewrite !lookup_insert_ne by congruence.
Qed.

End WrittenInOrder.

(** The building blocks: what a call does when the tool returns and when it
    raises. *)
Section BlockRules.

Variable T : toolchain.

Lemma ligand_ok p pr b vs fl lg :
  ligand_api T (Call Ligand None [p] pr) = Some b ->
  ligand T p pr (Kernel vs fl lg) =
  (Ok tt, Kernel vs (<[p := b]> fl)
                 (lg ++ [Launch (Call Ligand None [p] pr);
                         Created (ByBlock Ligand) p b])).
Proof.
  intros H. unfold ligand, bind, emit, create. cbn. rewrite H. cbn.
  by rewrite <- app_assoc.
Qed.

Lemma ligand_raises p pr vs fl lg :
  ligand_api T (Call Ligand None [p] pr) = None ->
  ligand T p pr (Kernel vs fl lg) =
  (Exc (BlockError Ligand),
   Kernel vs fl (lg ++ [Launch (Call Ligand None [p] pr)])).
Proof. intros H. unfold ligand, bind, emit, raise. cbn. by rewrite H. Qed.

Lemma babel_add_hydrogens_ok ip op pr src b vs fl lg :
  fl !! ip = Some src ->
  obabel_add_hydrogens T (Call BabelAddHydrogens (Some ip) [op] pr) src = Some b ->
  babel_add_hydrogens T ip op pr (Kernel vs fl lg) =
  (Ok tt, Kernel vs (<[op := b]> fl)
                 (lg ++ [Launch (Call BabelAddHydrogens (Some ip) [op] pr);
                         Created (ByBlock BabelAddHydrogens) op b])).
Proof.
  intros Hs H. unfold babel_add_hydrogens, bind, emit, read_file, create.
  cbn. rewrite Hs, H. cbn. by rewrite <- app_assoc.
Qed.

Lemma babel_add_hydrogens_raises ip op pr src vs fl lg :
  fl !! ip = Some src ->
  obabel_add_hydrogens T (Call BabelAddHydrogens (Some ip) [op] pr) src = None ->
  babel_add_hydrogens T ip op pr (Kernel vs fl lg) =
  (Exc (BlockError BabelAddHydrogens),
   Kernel vs fl (lg ++ [Launch (Call BabelAddHydrogens (Some ip) [op] pr)])).
Proof.
  intros Hs H. unfold babel_add_hydrogens, bind, emit, read_file, raise.
  cbn. by rewrite Hs, H.
Qed.

Lemma babel_minimize_ok ip op pr src b vs fl lg :
  fl !! ip = Some src ->
  obminimize T (Call BabelMinimize (Some ip) [op] pr) src = Some b ->
  babel_minimize T ip op pr (Kernel vs fl lg) =
  (Ok tt, Kernel vs (<[op := b]> fl)
                 (lg ++ [Launch (Call BabelMinimize (Some ip) [op] pr);
                         Created (ByBlock BabelMinimize) op b])).
Proof.
  intros Hs H. unfold babel_minimize, bind, emit, read_file, create.
  cbn. rewrite Hs, H. cbn. by rewrite <- app_assoc.
Qed.

Lemma babel_minimize_raises ip op pr src vs fl lg :
  fl !! ip = Some src ->
  obminimize T (Call BabelMinimize (Some ip) [op] pr) src = None ->
  babel_minimize T ip op pr (Kernel vs fl lg) =
  (Exc (BlockError BabelMinimize),
   Kernel vs fl (lg ++ [Launch (Call BabelMinimize (Some ip) [op] pr)])).
Proof.
  intros Hs H. unfold babel_minimize, bind, emit, read_file, raise.
  cbn. by rewrite Hs, H.
Qed.

Lemma acpype_params_gmx_ok ip g t p pr src r vs fl lg :
  fl !! ip = Some src ->
  acpype_gmx T (Call AcpypeParamsGMX (Some ip) [g; t; p] pr) src = Some r ->
  acpype_params_gmx T ip g t p pr (Kernel vs fl lg) =
  (Ok tt,
   Kernel vs
     (write_files
        (in_order (acpype_gmx_order T (Call AcpypeParamsGMX (Some ip) [g; t; p] pr) src)
                  (g, gro r) (t, itp r) (p, gmx_top r)) fl)
     ((lg ++ [Launch (Call AcpypeParamsGMX (Some ip) [g; t; p] pr)]) ++
      ((fun pb => Created (ByBlock AcpypeParamsGMX) pb.1 pb.2) <$>
        in_order (acpype_gmx_order T (Call AcpypeParamsGMX (Some ip) [g; t; p] pr) src)
                 (g, gro r) (t, itp r) (p, gmx_top r)))).
Proof.
  intros Hs H. unfold acpype_params_gmx. cbv zeta.
  unfold bind at 1, emit at 1. cbn [ns fs out].
  unfold bind at 1, read_file at 1. cbn [ns fs out]. rewrite Hs, H.
  apply create_all_ok.
Qed.

Lemma acpype_params_gmx_raises ip g t p pr src vs fl lg :
  fl !! ip = Some src ->
  acpype_gmx T (Call AcpypeParamsGMX (Some ip) [g; t; p] pr) src = None ->
  acpype_params_gmx T ip g t p pr (Kernel vs fl lg) =
  (Exc (BlockError AcpypeParamsGMX),
   Kernel vs fl (lg ++ [Launch (Call AcpypeParamsGMX (Some ip) [g; t; p] pr)])).
Proof.
  intros Hs H. unfold acpype_params_gmx, bind, emit, read_file, raise.
  cbn. by rewrite Hs, H.
Qed.

Lemma acpype_params_cns_ok ip a q p pr src r vs fl lg :
  fl !! ip = Some src ->
  acpype_cns T (Call AcpypeParamsCNS (Some ip) [a; q; p] pr) src = Some r ->
  acpype_params_cns T ip a q p pr (Kernel vs fl lg) =
  (Ok tt,
   Kernel vs
     (write_files
        (in_order (acpype_cns_order T (Call AcpypeParamsCNS (Some ip) [a; q; p] pr) src)
                  (a, inp r) (q, par r) (p, cns_top r)) fl)
     ((lg ++ [Launch (Call AcpypeParamsCNS (Some ip) [a; q; p] pr)]) ++
      ((fun pb => Created (ByBlock AcpypeParamsCNS) pb.1 pb.2) <$>
        in_order (acpype_cns_order T (Call AcpypeParamsCNS (Some ip) [a; q; p] pr) src)
                 (a, inp r) (q, par r) (p, cns_top r)))).
Proof.
  intros Hs H. unfold acpype_params_cns. cbv zeta.
  unfold bind at 1, emit at 1. cbn [ns fs out].
  unfold bind at 1, read_file at 1. cbn [ns fs out]. rewrite Hs, H.
  apply create_all_ok.
Qed.

Lemma acpype_params_cns_raises ip a q p pr src vs fl lg :
  fl !! ip = Some src ->
  acpype_cns T (Call AcpypeParamsCNS (Some ip) [a; q; p] pr) src = None ->
  acpype_params_cns T ip a q p pr (Kernel vs fl lg) =
  (Exc (BlockError AcpypeParamsCNS),
   Kernel vs fl (lg ++ [Launch (Call AcpypeParamsCNS (Some ip) [a; q; p] pr)])).
Proof.
  intros Hs H. unfold acpype_params_cns, bind, emit, read_file, raise.
  cbn. by rewrite Hs, H.
Qed.

End BlockRules.

(** The Colab cells: subprocess.run by how the program ends, and the
    try statement by how its body ends. *)
Lemma subprocess_run_returned T cmd k :
  program T cmd = Returned -> subprocess_run T cmd k = (Ok tt, k).
Proof. intros H. unfold subprocess_run. by rewrite H. Qed.

Lemma subprocess_run_not_found T cmd k :
  program T cmd = NotFound ->
  subprocess_run T cmd k = (Exc (FileNotFoundError (hd "" cmd)), k).
Proof. intros H. unfold subprocess_run. by rewrite H. Qed.

Lemma subprocess_run_failed T cmd k :
  program T cmd = Failed ->
  subprocess_run T cmd k = (Exc (CalledProcessError (hd "" cmd)), k).
Proof. intros H. unfold subprocess_run. by rewrite H. Qed.

Lemma try_step {A} (m h : nb A) k res r :
  m k = res ->
  match res with
  | (Exc (FileNotFoundError _), k') => h k'
  | _ => res
  end = r ->
  try_except_FileNotFoundError m h k = r.
Proof.
  intros <- <-. unfold try_except_FileNotFoundError.
  by destruct (m k) as [[a|[]] k1].
Qed.

Lemma lookup_binds l m x :
  binds l m !! x = match assoc x l with Some v => Some v | None => m !! x end.
Proof.
  induction l as [|[y v] l IH]; cbn [binds assoc]; [done|].
  destruct (String.eqb_spec x y) as [->|Hne].
  - by rewrite lookup_insert_eq.
  - by rewrite lookup_insert_ne.
Qed.

Lemma run_from_step n c rest k res r :
  body c k = res ->
  match res with
  | (Ok _, k') => run_from (S n) rest k'
  | (Exc e, k') => (Halted n e, k')
  end = r ->
  run_from n (c :: rest) k = r.
Proof. intros <- <-. cbn [run_from]. by destruct (body c k) as [[[]|e] k']. Qed.

(** ** Evaluating cells *)

(** Looking a name up in a namespace that is a known list of assignments,
    and a path up in a file system that is a known list of insertions. *)
Ltac reify_ns t :=
  lazymatch t with
  | @insert _ _ _ _ ?x ?v ?m =>
      let r := reify_ns m in
      lazymatch r with
      | (?l, ?base) => constr:(((x, v) :: l, base))
      end
  | ?m => constr:((@nil (string * value), m))
  end.

Ltac look_name :=
  lazymatch goal with
  | |- ?t !! ?x = _ =>
      let r := reify_ns t in
      lazymatch r with
      | (?l, ?m) => refine (eq_trans (lookup_binds l m x) _); reflexivity
      end
  end.

Ltac file_lookup :=
  repeat first
    [ rewrite lookup_insert_eq
    | rewrite lookup_insert_ne by (apply path_ne; discriminate)
    | rewrite lookup_written_1 by (apply path_ne; discriminate)
    | rewrite lookup_written_2 by (apply path_ne; discriminate)
    | rewrite lookup_written_3 by (apply path_ne; discriminate)
    | rewrite lookup_written_ne by (apply path_ne; discriminate) ].

Ltac look_file := file_lookup; first [ reflexivity | eassumption ].

(** One operation applied to a kernel. *)
Ltac prim :=
  lazymatch goal with
  | |- name _ _ = _ => apply name_ok; look_name
  | |- name_str _ _ = _ => apply name_str_ok; look_name
  | |- name_dict _ _ = _ => apply name_dict_ok; look_name
  | |- name_widget _ _ = _ => apply name_widget_ok; look_name
  | |- add_str _ _ _ = _ => apply add_str_ok; look_name
  | |- read_file _ _ = _ => apply read_file_ok; look_file
  | |- show_structure_file _ _ = _ => apply show_structure_file_ok; look_file
  | |- add_representation _ _ _ _ = _ => eapply add_representation_ok; look_name
  | |- remote_call _ _ _ _ _ = _ => eapply remote_call_ok; look_name
  | |- set_camera _ _ _ = _ => eapply set_camera_ok; look_name
  | |- display _ _ = _ => eapply display_ok; look_name
  | |- display_hbox _ _ _ _ = _ => eapply display_hbox_ok; look_name
  | |- copyfile _ _ _ = _ =>
      eapply copyfile_ok; [ apply path_ne; discriminate | look_file ]
  | |- subprocess_run _ _ _ = _ =>
      first [ apply subprocess_run_returned; eassumption
            | apply subprocess_run_not_found; eassumption
            | apply subprocess_run_failed; eassumption ]
  | |- ligand _ _ _ _ = _ =>
      first [ eapply ligand_ok; eassumption
            | eapply ligand_raises; eassumption ]
  | |- babel_add_hydrogens _ _ _ _ _ = _ =>
      first [ eapply babel_add_hydrogens_ok; [ look_file | eassumption ]
            | eapply babel_add_hydrogens_raises; [ look_file | eassumption ] ]
  | |- babel_minimize _ _ _ _ _ = _ =>
      first [ eapply babel_minimize_ok; [ look_file | eassumption ]
            | eapply babel_minimize_raises; [ look_file | eassumption ] ]
  | |- acpype_params_gmx _ _ _ _ _ _ _ = _ =>
      first [ eapply acpype_params_gmx_ok; [ look_file | eassumption ]
            | eapply acpype_params_gmx_raises; [ look_file | eassumption ] ]
  | |- acpype_params_cns _ _ _ _ _ _ _ = _ =>
      first [ eapply acpype_params_cns_ok; [ look_file | eassumption ]
            | eapply acpype_params_cns_raises; [ look_file | eassumption ] ]
  | |- ret ?a ?k = _ => exact (eq_refl (Ok a, k))
  | |- raise ?e ?k = _ => exact (eq_refl (Exc e, k))
  | |- assign ?x ?v (Kernel ?vs ?fl ?lg) = _ =>
      exact (eq_refl (Ok tt, Kernel (<[x := v]> vs) fl lg))
  | |- import_ ?m (Kernel ?vs ?fl ?lg) = _ =>
      exact (eq_refl (Ok tt, Kernel (<[m := VImported m]> vs) fl lg))
  | |- import_from ?m ?x (Kernel ?vs ?fl ?lg) = _ =>
      exact (eq_refl (Ok tt, Kernel (<[x := VImported (m +:+ "." +:+ x)]> vs) fl lg))
  | |- emit ?e (Kernel ?vs ?fl ?lg) = _ =>
      exact (eq_refl (Ok tt, Kernel vs fl (lg ++ [e])))
  end.

(** A cell body applied to a kernel, operation by operation. *)
Ltac ev :=
  lazymatch goal with
  | |- bind _ _ _ = _ =>
      eapply bind_step; [ ev | cbv beta iota; ev ]
  | |- try_except_FileNotFoundError _ _ _ = _ =>
      eapply try_step; [ ev | cbv beta iota; ev ]
  | |- (if ?b then _ else _) _ = _ =>
      lazymatch goal with
      | H : b = _ |- _ => rewrite H; ev
      end
  | |- (_, _) = _ => reflexivity
  | |- _ => prim
  end.

Ltac unfold_cell :=
  cbn [body];
  unfold cell_colab_install, cell_colab_widgets, cell_inputs, cell_fetch,
    cell_view_input, cell_add_hydrogens, cell_view_h, cell_minimize,
    cell_view_min, cell_compare, cell_acpype_gmx, cell_view_gro,
    cell_acpype_cns, cell_view_cns_pdb.

(** A list of cells run from a kernel. *)
Ltac run_cells :=
  lazymatch goal with
  | |- run_from _ [] _ = _ => reflexivity
  | |- run_from _ (_ :: _) _ = _ =>
      eapply run_from_step;
      [ unfold_cell; ev | cbv beta iota; run_cells ]
  | |- _ => reflexivity
  end.

(** ** The Colab cells *)

Lemma run_from_app n l1 l2 k :
  run_from n (l1 ++ l2) k =
  match run_from n l1 k with
  | (Completed, k') => run_from (n + length l1) l2 k'
  | r => r
  end.
Proof.
  revert n k. induction l1 as [|c l1 IH]; intros n k; cbn [app run_from length].
  - by rewrite Nat.add_0_r.
  - destruct (body c k) as [[[]|e] k']; [|done].
    by rewrite IH, Nat.add_succ_r.
Qed.

Ltac setup_leaf :=
  eexists; split; [ intros vs fl lg; eexists; run_cells | exact I ].

(** How the two Colab cells end depends on the programs they start and on
    nothing in the kernel; they touch neither files nor record. *)
Lemma setup_cells_run T :
  exists s,
    (forall vs fl lg, exists vs',
        run_from 0 (setup_cells T) (Kernel vs fl lg) = (s, Kernel vs' fl lg)) /\
    setup_exn s.
Proof.
  unfold setup_cells.
  destruct (in_colab T) eqn:Hcolab; [ | setup_leaf ].
  destruct (program T ["conda"; "-V"]) eqn:Hconda; [ | | setup_leaf ].
  - destruct (colab_chdir_ok T) eqn:Hdir; setup_leaf.
  - destruct (program T [sys_executable T; "-m"; "pip"; "install"; "condacolab"])
      eqn:Hpip; [ | setup_leaf | setup_leaf ].
    destruct (repo_cloned T) eqn:Hrepo;
      [ | destruct (program T ["mamba"; "install"; "-y"; "git"]) eqn:Hgit;
          [ | setup_leaf | setup_leaf ];
          destruct (program T ["git"; "clone";
                               "https://github.com/bioexcel/biobb_wf_ligand_parameterization.git"])
            eqn:Hclone; [ | setup_leaf | setup_leaf ] ].
    all: destruct (program T ["mamba"; "env"; "update"; "-n"; "base"; "-f";
                              "biobb_wf_ligand_parameterization" +:+
                              "/conda_env/environment.yml"])
           eqn:Henv; [ | setup_leaf | setup_leaf ].
    all: destruct (program T ["mamba"; "install"; "-y"; "-c"; "conda-forge";
                              "nglview==3.0.8"; "ipywidgets=7.7.2"])
           eqn:Hngl; [ | setup_leaf | setup_leaf ].
    all: destruct (colab_chdir_ok T) eqn:Hdir; setup_leaf.
Qed.

Lemma setup_run T vs fl lg :
  exists vs',
    run_from 0 (setup_cells T) (Kernel vs fl lg) =
    (setup_status T, Kernel vs' fl lg).
Proof.
  destruct (setup_cells_run T) as (s & Hs & _).
  unfold setup_status, run_all. destruct (Hs ∅ ∅ []) as [vs0 ->].
  apply Hs.
Qed.

Lemma setup_status_exn T : setup_exn (setup_status T).
Proof.
  destruct (setup_cells_run T) as (s & Hs & He).
  unfold setup_status, run_all. by destruct (Hs ∅ ∅ []) as [vs0 ->].
Qed.

Lemma setup_never_block_error T n b : setup_status T ≠ Halted n (BlockError b).
Proof. intros H. pose proof (setup_status_exn T) as He. by rewrite H in He. Qed.

(** ** The notebooks refine the chain *)

Ltac unfold_calls :=
  unfold pipeline_calls, generator_call, fetch_call, add_hydrogens_call,
    minimize_call, acpype_gmx_call, acpype_cns_call in *.

(** Evaluates the run in the goal, then compares what it left. *)
Ltac run_leaf :=
  unfold_calls;
  lazymatch goal with
  | |- context [run_from ?n ?cells ?k] =>
      let H := fresh "Hrun" in
      eassert (H : run_from n cells k = _); [ run_cells | rewrite H; clear H ]
  end.

Ltac split_on_tools T i :=
  destruct (ligand_api T (fetch_call i)) as [?b1|] eqn:?H1;
  [ destruct (obabel_add_hydrogens T (add_hydrogens_call i) _) as [?b2|] eqn:?H2;
    [ destruct (obminimize T (minimize_call i) _) as [?b3|] eqn:?H3 | ] | ].

(** The six orders a parameter generator can write its files in. *)
Ltac split_order :=
  repeat lazymatch goal with
         | |- context [acpype_gmx_order ?T ?c ?b] =>
             destruct (acpype_gmx_order T c b)
         | |- context [acpype_cns_order ?T ?c ?b] =>
             destruct (acpype_cns_order T c b)
         end.

Lemma chain_run v n T i ns0 fs0 :
  summarize (run_from n (pipeline_cells v T i) (Kernel ns0 fs0 [])) =
  chain v n T i fs0.
Proof.
  unfold chain. split_on_tools T i.
  - destruct v; unfold pipeline_cells, web_notebook, gmx_notebook, cns_notebook;
      cbn [drop].
    + destruct (acpype_gmx T (acpype_gmx_call i) _) as [r|] eqn:H4;
        run_leaf; split_order; reflexivity.
    + destruct (acpype_cns T (acpype_cns_call i) _) as [r|] eqn:H4;
        run_leaf; split_order; reflexivity.
  - destruct v; unfold pipeline_cells, web_notebook, gmx_notebook, cns_notebook;
      cbn [drop]; run_leaf; reflexivity.
  - destruct v; unfold pipeline_cells, web_notebook, gmx_notebook, cns_notebook;
      cbn [drop]; run_leaf; reflexivity.
  - destruct v; unfold pipeline_cells, web_notebook, gmx_notebook, cns_notebook;
      cbn [drop]; run_leaf; reflexivity.
Qed.

(** What a run leaves, whatever the namespace it starts from. *)
Lemma run_summary v T i ns0 fs0 :
  summarize (run_all (notebook v T i) ns0 fs0) = expected v T i fs0.
Proof.
  destruct v.
  - unfold expected, run_all, notebook.
    change (gmx_notebook T i) with (setup_cells T ++ pipeline_cells GMX T i).
    rewrite run_from_app. destruct (setup_run T ns0 fs0 []) as [vs ->].
    destruct (setup_status T); [ apply chain_run | reflexivity ].
  - exact (chain_run CNS 0 T i ns0 fs0).
Qed.

(** Without the visualization cells the run leaves the same artifacts. *)
Lemma strip_pipeline_cells v T i :
  strip_visualization (pipeline_cells v T i) =
  [ Cell Parameters (cell_inputs i); Cell Pipeline (cell_fetch T);
    Cell Pipeline (cell_add_hydrogens T); Cell Pipeline (cell_minimize T);
    Cell Pipeline (match v with
                   | GMX => cell_acpype_gmx T
                   | CNS => cell_acpype_cns T
                   end) ].
Proof. by destruct v. Qed.

Lemma stripped_chain_run v n T i ns0 fs0 :
  same_artifacts
    (summarize (run_from n (strip_visualization (pipeline_cells v T i))
                         (Kernel ns0 fs0 [])))
    (chain v n T i fs0).
Proof.
  rewrite strip_pipeline_cells. unfold chain, same_artifacts.
  split_on_tools T i.
  - destruct v.
    + destruct (acpype_gmx T (acpype_gmx_call i) _) as [r|] eqn:H4;
        run_leaf; split_order; by repeat split.
    + destruct (acpype_cns T (acpype_cns_call i) _) as [r|] eqn:H4;
        run_leaf; split_order; by repeat split.
  - destruct v; run_leaf; by repeat split.
  - destruct v; run_leaf; by repeat split.
  - destruct v; run_leaf; by repeat split.
Qed.

Lemma stripped_run_summary v T i ns0 fs0 :
  same_artifacts
    (summarize (run_all (strip_visualization (notebook v T i)) ns0 fs0))
    (expected v T i fs0).
Proof.
  destruct v.
  - unfold expected, run_all, notebook.
    change (strip_visualization (gmx_notebook T i)) with
      (setup_cells T ++ strip_visualization (pipeline_cells GMX T i)).
    rewrite run_from_app. destruct (setup_run T ns0 fs0 []) as [vs ->].
    destruct (setup_status T); [ apply stripped_chain_run | by repeat split ].
  - exact (stripped_chain_run CNS 0 T i ns0 fs0).
Qed.

(** The executed copy under html/ behaves as the GROMACS notebook does
    outside Colab, two cells earlier. *)
Lemma web_run_summary T i ns0 fs0 :
  summarize (run_all (web_notebook T i) ns0 fs0) = chain GMX 0 T i fs0.
Proof. exact (chain_run GMX 0 T i ns0 fs0). Qed.

(** ** Projections of a run *)

Section Projections.

Variables (v : variant) (T : toolchain) (i : inputs).
Variables (ns0 : gmap string value) (fs0 : gmap string content).

Let r := run_all (notebook v T i) ns0 fs0.
Let e := expected v T i fs0.

Lemma run_status : r.1 = s_status e.
Proof. exact (f_equal s_status (run_summary v T i ns0 fs0)). Qed.

Lemma run_fs : fs r.2 = s_fs e.
Proof. exact (f_equal s_fs (run_summary v T i ns0 fs0)). Qed.

Lemma run_launches : launches (out r.2) = s_launches e.
Proof. exact (f_equal s_launches (run_summary v T i ns0 fs0)). Qed.

Lemma run_creations : creations (out r.2) = s_creations e.
Proof. exact (f_equal s_creations (run_summary v T i ns0 fs0)). Qed.

End Projections.

(** ** Visualization frames the pipeline *)

Section Frames.

Lemma frames_ret {A} (a : A) : frames (ret a).
Proof. by intros k. Qed.

Lemma frames_raise {A} e : frames (@raise A e).
Proof. by intros k. Qed.

Lemma frames_bind {A B} (m : nb A) (f : A -> nb B) :
  frames m -> (forall a, frames (f a)) -> frames (bind m f).
Proof.
  intros Hm Hf k. specialize (Hm k). unfold bind.
  destruct (m k) as [[a|e] k1]; cbn [snd] in *; [|done].
  destruct Hm as (Hfs & Hl & Hc & Hns), (Hf a k1) as (Hfs' & Hl' & Hc' & Hns').
  repeat split; [congruence..|].
  intros x Hx. by rewrite Hns', Hns.
Qed.

Lemma frames_name x : frames (name x).
Proof. intros k. unfold name. by destruct (ns k !! x). Qed.

Lemma frames_name_str x : frames (name_str x).
Proof.
  apply frames_bind; [apply frames_name|].
  intros []; auto using frames_ret, frames_raise.
Qed.

Lemma frames_name_widget x : frames (name_widget x).
Proof.
  apply frames_bind; [apply frames_name|].
  intros []; auto using frames_ret, frames_raise.
Qed.

Lemma frames_read_file p : frames (read_file p).
Proof. intros k. unfold read_file. by destruct (fs k !! p). Qed.

Lemma frames_show_structure_file p : frames (show_structure_file p).
Proof. intros k. unfold show_structure_file. by destruct (fs k !! p). Qed.

Lemma frames_assign x v : x ∈ widget_names -> frames (assign x v).
Proof.
  intros Hx k. unfold assign. cbn [snd ns fs out]. repeat split.
  intros y Hy. apply lookup_insert_ne. by intros ->.
Qed.

Lemma frames_emit_display ws : frames (emit (Display ws)).
Proof.
  intros k. unfold emit, launches, creations. cbn [snd ns fs out].
  rewrite !omap_app. cbn. by rewrite !app_nil_r.
Qed.

Lemma frames_add_representation x t sel :
  x ∈ widget_names -> frames (add_representation x t sel).
Proof.
  intros Hx. apply frames_bind; [apply frames_name_widget|].
  intros w. by apply frames_assign.
Qed.

Lemma frames_remote_call x fn target args :
  x ∈ widget_names -> frames (remote_call x fn target args).
Proof.
  intros Hx. apply frames_bind; [apply frames_name_widget|].
  intros w. by apply frames_assign.
Qed.

Lemma frames_set_camera x cam : x ∈ widget_names -> frames (set_camera x cam).
Proof.
  intros Hx. apply frames_bind; [apply frames_name_widget|].
  intros w. by apply frames_assign.
Qed.

Lemma frames_display x : frames (display x).
Proof.
  apply frames_bind; [apply frames_name_widget|].
  intros w. apply frames_emit_display.
Qed.

Lemma frames_display_hbox x1 x2 x3 : frames (display_hbox x1 x2 x3).
Proof.
  repeat (apply frames_bind; [apply frames_name_widget|intros ?]).
  apply frames_emit_display.
Qed.

End Frames.

Lemma widget_name_view : "view" ∈ widget_names.
Proof. unfold widget_names. set_solver. Qed.
Lemma widget_name_view1 : "view1" ∈ widget_names.
Proof. unfold widget_names. set_solver. Qed.
Lemma widget_name_view2 : "view2" ∈ widget_names.
Proof. unfold widget_names. set_solver. Qed.
Lemma widget_name_view3 : "view3" ∈ widget_names.
Proof. unfold widget_names. set_solver. Qed.

Create HintDb frames_db.
#[local] Hint Resolve frames_name frames_name_str frames_name_widget
  frames_read_file frames_show_structure_file frames_assign
  frames_emit_display frames_add_representation frames_remote_call
  frames_set_camera frames_display frames_display_hbox
  widget_name_view widget_name_view1 widget_name_view2 widget_name_view3
  : frames_db.

Ltac frames_cell :=
  repeat (apply frames_bind; [ solve [ eauto with frames_db ] | intros ? ]);
  solve [ eauto with frames_db ].

Lemma visualization_cells_frame v T i :
  Forall (fun c => frames (body c))
         (filter (fun c => is_visualization c = true) (notebook v T i)).
Proof.
  destruct v.
  - change (filter _ (notebook GMX T i)) with
      [ Cell Visualization cell_view_input; Cell Visualization cell_view_h;
        Cell Visualization cell_view_min; Cell Visualization cell_compare;
        Cell Visualization cell_view_gro ].
    repeat constructor; cbn [body]; unfold_cell; frames_cell.
  - change (filter _ (notebook CNS T i)) with
      [ Cell Visualization cell_view_input; Cell Visualization cell_view_h;
        Cell Visualization cell_view_min; Cell Visualization cell_compare;
        Cell Visualization cell_view_cns_pdb ].
    repeat constructor; cbn [body]; unfold_cell; frames_cell.
Qed.

Lemma pipeline_variables_not_widgets :
  Forall (fun x => x ∉ widget_names) pipeline_variables.
Proof.
  unfold pipeline_variables, widget_names.
  repeat (apply Forall_cons; split;
          [ intros H; repeat (apply elem_of_cons in H as [H|H]; [discriminate|]);
            by apply elem_of_nil in H | ]).
  apply Forall_nil_2.
Qed.

(** ** The notebooks on the toy toolchain *)

Example extension_of_minimized : extension "IBP.H.min.pdb" = Some "pdb".
Proof. reflexivity. Qed.

Example extension_without_dot : extension "IBPparams" = None.
Proof. reflexivity. Qed.

Example toy_setup_passes : setup_status toy_tools = Completed.
Proof. by vm_compute. Qed.

Example toy_gmx_run_completes :
  (run_all (notebook GMX toy_tools gmx_defaults) ∅ ∅).1 = Completed.
Proof. by vm_compute. Qed.

Example toy_gmx_run_calls :
  callee <$> launches (out (run_all (notebook GMX toy_tools gmx_defaults) ∅ ∅).2)
  = [Ligand; BabelAddHydrogens; BabelMinimize; AcpypeParamsGMX].
Proof. by vm_compute. Qed.

Example toy_cns_run_files :
  created_paths (out (run_all (notebook CNS toy_tools cns_defaults) ∅ ∅).2)
  = ["G39.pdb"; "G39.H.mol2"; "G39.H.min.pdb"; "G39params.inp";
     "G39params.par"; "G39params.top"; "G39params.pdb"].
Proof. by vm_compute. Qed.

Example toy_minimizer_failure :
  (run_all (notebook GMX toy_tools_no_minimizer gmx_defaults) ∅ ∅).1
  = Halted 7 (BlockError BabelMinimize).
Proof. by vm_compute. Qed.

Example toy_web_run_agrees :
  summarize (run_all (web_notebook toy_tools gmx_defaults) ∅ ∅)
  = chain GMX 0 toy_tools gmx_defaults ∅.
Proof. apply web_run_summary. Qed.

(** Outside Colab a name that was never assigned stops the cell that reads
    it: the fetch cell run on its own. *)
Example fetch_without_inputs :
  (run_all [Cell Pipeline (cell_fetch toy_tools)] ∅ ∅).1
  = Halted 0 (NameError "ligandCode").
Proof. by vm_compute. Qed.

(** ** The claims *)

(** Case analysis on how the chain went. *)
Ltac chain_cases :=
  unfold expected, chain; cbv zeta; repeat case_match; split_order;
  cbn [s_status s_fs s_launches s_creations app in_order write_files written
       fmap list_fmap fst snd].

(** The Colab cells do not stop a run with the exception of a block. *)
Ltac not_setup :=
  lazymatch goal with
  | H : setup_status _ = Halted _ (BlockError _) |- _ =>
      destruct (setup_never_block_error _ _ _ H)
  end.

(** Three elements in any order. *)
Ltac perm3 :=
  first [ reflexivity
        | apply perm_swap
        | apply perm_skip; apply perm_swap
        | exact (Permutation_cons_append [_; _] _)
        | symmetry; exact (Permutation_cons_append [_; _] _)
        | exact (Permutation_rev [_; _; _]) ].

Lemma three_then_rest {A} (x y z a b c : A) l :
  [x; y; z] ≡ₚ [a; b; c] -> x :: y :: z :: l ≡ₚ a :: b :: c :: l.
Proof. intros H. exact (Permutation_app_tail l H). Qed.

(** Membership in a list that is written out. *)
Ltac in_list :=
  repeat first [ apply list_elem_of_here | apply list_elem_of_further ].

(** The call a block's write answers to: a launch on record, found after
    [skip] steps down the list. *)
Ltac told_by skip :=
  eexists; split;
  [ skip; apply list_elem_of_here
  | split; [ reflexivity | cbn; set_solver ] ].

Ltac told :=
  lazymatch goal with
  | |- exists c, c ∈ _ /\ callee c = _ /\ _ =>
      first [ solve [ told_by ltac:(idtac) ]
            | solve [ told_by ltac:(do 1 apply list_elem_of_further) ]
            | solve [ told_by ltac:(do 2 apply list_elem_of_further) ]
            | solve [ told_by ltac:(do 3 apply list_elem_of_further) ] ]
  | |- True => exact I
  end.

(** C1. The pipeline is a straight chain: in every run each step that is
    launched reads the file the step before it was told to write, every file
    a block writes is at an output path of its call, the steps launched are
    an initial segment of fetch, add hydrogens, minimize, generate
    parameters (none skipped, repeated or retried), and a run that completes
    launched all four. *)
Theorem pipeline_is_straight_chain v T i ns0 fs0 :
  let r := run_all (notebook v T i) ns0 fs0 in
  adjacent feeds (launches (out r.2)) /\
  writes_as_told (out r.2) /\
  callee <$> launches (out r.2) `prefix_of` pipeline_blocks v /\
  match r.1 with
  | Completed => callee <$> launches (out r.2) = pipeline_blocks v
  | Halted _ _ => True
  end.
Proof.
  cbv zeta. unfold writes_as_told.
  rewrite run_status, run_launches, run_creations.
  chain_cases; unfold pipeline_calls, generator_call, pipeline_blocks, generator;
    cbn [adjacent fmap list_fmap callee].
  all: split; [ repeat split; try (eexists; split; reflexivity) | ].
  all: split; [ repeat (apply Forall_cons; split; [ cbn [fst snd]; told | ]);
                apply Forall_nil_2 | ].
  all: split; [ by eexists | done ].
Qed.

(** C2. For every ligand code, the files a completed run produced are
    exactly <code>.pdb by the fetcher, <code>.H.mol2 by the hydrogen adder,
    <code>.H.min.pdb by the minimizer, and the bundle <code>params with
    .gro/.itp/.top (GROMACS) or .inp/.par/.top/.pdb (CNS). *)
Theorem produced_file_names v T i ns0 fs0 :
  (run_all (notebook v T i) ns0 fs0).1 = Completed ->
  let r := run_all (notebook v T i) ns0 fs0 in
  let c := ligandCode i in
  (fun x : writer * string * content => x.1) <$> creations (out r.2)
    ≡ₚ structure_names c ++ bundle_writers v c /\
  (fun x : writer * string => x.2) <$> bundle_writers v c = bundle_paths v c /\
  created_paths (out r.2)
    ≡ₚ [c +:+ ".pdb"; c +:+ ".H.mol2"; c +:+ ".H.min.pdb"] ++ bundle_paths v c.
Proof.
  cbv zeta. unfold created_paths. rewrite run_status, run_creations.
  chain_cases; intros [=]; unfold structure_names, bundle_writers, bundle_paths;
    cbn [fmap list_fmap fst snd app].
  all: split; [ | split; [ reflexivity | ] ].
  all: do 3 apply perm_skip; apply three_then_rest; perm3.
Qed.

Lemma produced_file_names_witness :
  let r := run_all (notebook CNS toy_tools cns_defaults) ∅ ∅ in
  (fun x : writer * string * content => x.1) <$> creations (out r.2)
    ≡ₚ structure_names "G39" ++ bundle_writers CNS "G39" /\
  (fun x : writer * string => x.2) <$> bundle_writers CNS "G39"
    = bundle_paths CNS "G39" /\
  created_paths (out r.2)
    ≡ₚ ["G39.pdb"; "G39.H.mol2"; "G39.H.min.pdb"] ++ bundle_paths CNS "G39".
Proof.
  apply (produced_file_names CNS toy_tools cns_defaults ∅ ∅).
  vm_compute. reflexivity.
Defined.

(** C3, as the spec states it, fails on the CNS notebook: the coordinate
    file of the bundle is not written by the parameter generator. *)
Lemma cns_bundle_not_by_generator :
  (run_all (notebook CNS toy_tools cns_defaults) ∅ ∅).1 = Completed /\
  ~ generator_writes_bundle CNS
      (run_all (notebook CNS toy_tools cns_defaults) ∅ ∅) "G39".
Proof.
  split; [ by vm_compute | ].
  unfold generator_writes_bundle, bundle_paths. intros H.
  apply Forall_cons in H as [_ H]. apply Forall_cons in H as [_ H].
  apply Forall_cons in H as [_ H]. apply Forall_cons in H as [[b H] _].
  vm_compute in H.
  repeat (apply elem_of_cons in H as [H|H]; [ discriminate H | ]).
  by apply elem_of_nil in H.
Qed.

(** C3, amended. In a completed run the parameter generator is called
    once, with the net charge the user set, and that call writes the files
    at its three output paths: these are the whole bundle in the GROMACS
    variant; in the CNS variant they are the .inp, .par and .top files, and
    the coordinate file <code>params.pdb is written by shutil.copyfile, not
    by the generator. *)
Theorem generator_writes_its_outputs v T i ns0 fs0 :
  (run_all (notebook v T i) ns0 fs0).1 = Completed ->
  let r := run_all (notebook v T i) ns0 fs0 in
  let c := ligandCode i in
  let g := generator_call v i in
  filter (fun x => callee x = generator v) (launches (out r.2)) = [g] /\
  properties g !! "charge" = Some (VInt (mol_charge i)) /\
  Forall (fun p => exists b, (ByBlock (generator v), p, b) ∈ creations (out r.2))
         (output_paths g) /\
  match v with
  | GMX => bundle_paths GMX c = output_paths g
  | CNS =>
      bundle_paths CNS c = output_paths g ++ [c +:+ "params.pdb"] /\
      (exists b, (ByCopyfile, c +:+ "params.pdb", b) ∈ creations (out r.2)) /\
      ~ (exists b, (ByBlock AcpypeParamsCNS, c +:+ "params.pdb", b)
                     ∈ creations (out r.2))
  end.
Proof.
  cbv zeta. rewrite run_status, run_launches, run_creations.
  chain_cases; intros [=];
    unfold pipeline_calls, generator_call, generator, acpype_gmx_call,
      acpype_cns_call, bundle_paths; cbn [output_paths properties].
  all: split; [ reflexivity | ].
  all: split; [ by rewrite lookup_insert_ne, lookup_singleton_eq | ].
  all: split;
    [ repeat (apply Forall_cons; split; [ eexists; in_list | ]);
      apply Forall_nil_2 | ].
  all: try reflexivity.
  all: split; [ reflexivity | ].
  all: split; [ eexists; in_list | ].
  all: intros [b Hin];
    repeat (apply elem_of_cons in Hin as [Hin|Hin];
            [ first [ discriminate Hin
                    | injection Hin as Hin _; by apply path_ne in Hin ] | ]);
    by apply elem_of_nil in Hin.
Qed.

Lemma generator_writes_its_outputs_witness :
  let r := run_all (notebook GMX toy_tools gmx_defaults) ∅ ∅ in
  let g := generator_call GMX gmx_defaults in
  filter (fun x => callee x = AcpypeParamsGMX) (launches (out r.2)) = [g] /\
  properties g !! "charge" = Some (VInt (-1)) /\
  Forall (fun p => exists b, (ByBlock AcpypeParamsGMX, p, b) ∈ creations (out r.2))
         (output_paths g) /\
  bundle_paths GMX "IBP" = output_paths g.
Proof.
  apply (generator_writes_its_outputs GMX toy_tools gmx_defaults ∅ ∅).
  vm_compute. reflexivity.
Defined.

(** C4. When the tool of a pipeline step raises, the run stops at the cell
    of that step: the steps launched are those up to it, each once; the
    files created are exactly the outputs of the steps before it; and the
    output files of the step and of all later steps are as they were. *)
Theorem failed_step_stops_run v T i ns0 fs0 n b :
  (run_all (notebook v T i) ns0 fs0).1 = Halted n (BlockError b) ->
  let r := run_all (notebook v T i) ns0 fs0 in
  let c := ligandCode i in
  exists j,
    pipeline_blocks v !! j = Some b /\
    n = step_cell v j /\
    callee <$> launches (out r.2) = take (S j) (pipeline_blocks v) /\
    NoDup (callee <$> launches (out r.2)) /\
    created_paths (out r.2) =
      concat (step_outputs c <$> take j (pipeline_blocks v)) /\
    Forall (fun p => (p ∉ created_paths (out r.2)) /\ fs r.2 !! p = fs0 !! p)
           (concat (step_outputs c <$> drop j (pipeline_blocks v))).
Proof.
  cbv zeta. unfold created_paths.
  rewrite run_status, run_fs, run_launches, run_creations.
  chain_cases; intros [= ? ?]; subst; try not_setup.
  all: unfold pipeline_calls, generator_call, pipeline_blocks, generator,
         step_outputs, bundle_paths;
       cbn [fmap list_fmap callee fst snd].
  all: first [ exists 0%nat; split; [ reflexivity | ]
             | exists 1%nat; split; [ reflexivity | ]
             | exists 2%nat; split; [ reflexivity | ]
             | exists 3%nat; split; [ reflexivity | ] ].
  all: split; [ reflexivity | ].
  all: split; [ reflexivity | ].
  all: split;
    [ repeat (apply NoDup_cons; split;
              [ intros Hin;
                repeat (apply elem_of_cons in Hin as [Hin|Hin];
                        [ discriminate Hin | ]);
                by apply elem_of_nil in Hin | ]);
      apply NoDup_nil_2 | ].
  all: split; [ reflexivity | ].
  all: cbn [drop take fmap list_fmap concat app].
  all: repeat (apply Forall_cons; split;
               [ split;
                 [ intros Hin;
                   repeat (apply elem_of_cons in Hin as [Hin|Hin];
                           [ by apply path_ne in Hin | ]);
                   by apply elem_of_nil in Hin
                 | by file_lookup ]
               | ]).
  all: apply Forall_nil_2.
Qed.

Lemma failed_step_stops_run_witness :
  let r := run_all (notebook GMX toy_tools_no_minimizer gmx_defaults) ∅ ∅ in
  exists j,
    pipeline_blocks GMX !! j = Some BabelMinimize /\
    7%nat = step_cell GMX j /\
    callee <$> launches (out r.2) = take (S j) (pipeline_blocks GMX) /\
    NoDup (callee <$> launches (out r.2)) /\
    created_paths (out r.2) =
      concat (step_outputs "IBP" <$> take j (pipeline_blocks GMX)) /\
    Forall (fun p => (p ∉ created_paths (out r.2)) /\
                    fs r.2 !! p = (∅ : gmap string content) !! p)
           (concat (step_outputs "IBP" <$> drop j (pipeline_blocks GMX))).
Proof.
  apply (failed_step_stops_run GMX toy_tools_no_minimizer gmx_defaults ∅ ∅
                               7 BabelMinimize).
  vm_compute. reflexivity.
Defined.

(** C5. A visualization cell leaves the files, the calls and writes on
    record and every variable of the pipeline as they were, whatever the
    kernel it runs in; and the notebook without its visualization cells
    stops the same way and leaves the same files, calls and writes. *)
Theorem visualization_leaves_pipeline_alone v T i :
  Forall (fun c => frames (body c))
         (filter (fun c => is_visualization c = true) (notebook v T i)) /\
  Forall (fun x => x ∉ widget_names) pipeline_variables /\
  forall ns0 fs0,
    same_artifacts
      (summarize (run_all (strip_visualization (notebook v T i)) ns0 fs0))
      (summarize (run_all (notebook v T i) ns0 fs0)).
Proof.
  split; [ apply visualization_cells_frame | ].
  split; [ apply pipeline_variables_not_widgets | ].
  intros ns0 fs0. rewrite run_summary. apply stripped_run_summary.
Qed.

(** C6. The minimization step is launched at most once, and once in a run
    that completes; its call has the hydrogenated structure as input file,
    the three options method 'sd', criteria '1e-10' and force_field 'GAFF',
    and one output path, the only file the minimizer writes. *)
Theorem minimizer_inputs v T i ns0 fs0 :
  let r := run_all (notebook v T i) ns0 fs0 in
  let c := ligandCode i in
  let m := Call BabelMinimize (Some (c +:+ ".H.mol2")) [c +:+ ".H.min.pdb"]
                {[ "method" := VStr "sd"; "criteria" := VStr "1e-10";
                   "force_field" := VStr "GAFF" ]} in
  let ms := filter (fun x => callee x = BabelMinimize) (launches (out r.2)) in
  let ws := filter (fun x : writer * string * content =>
                      x.1.1 = ByBlock BabelMinimize) (creations (out r.2)) in
  (ms = [] \/ ms = [m]) /\
  size (properties m) = 3%nat /\
  ((fun x : writer * string * content => x.1.2) <$> ws = [] \/
   (fun x : writer * string * content => x.1.2) <$> ws = output_paths m) /\
  match r.1 with
  | Completed =>
      ms = [m] /\
      (fun x : writer * string * content => x.1.2) <$> ws = output_paths m
  | Halted _ _ => True
  end.
Proof.
  cbv zeta. rewrite run_status, run_launches, run_creations.
  split; [ | split; [ by vm_compute | ] ].
  - chain_cases; unfold pipeline_calls, generator_call; destruct v;
      (by left) || (by right).
  - chain_cases; unfold pipeline_calls, generator_call; destruct v;
      try discriminate; (split; [ (by left) || (by right) | done ]).
Qed.

(** Formats of the calls of the chain. *)
Lemma fetch_output_format i : output_format (fetch_call i) = Some "pdb".
Proof.
  unfold output_format, fetch_call. cbn [output_paths properties].
  rewrite lookup_singleton_ne by discriminate.
  by apply extension_app.
Qed.

Lemma add_hydrogens_input_format i :
  input_format (add_hydrogens_call i) = Some "pdb".
Proof.
  unfold input_format, add_hydrogens_call. cbn [input_path properties].
  by rewrite lookup_insert_ne, lookup_insert_eq.
Qed.

Lemma add_hydrogens_output_format i :
  output_format (add_hydrogens_call i) = Some "mol2".
Proof.
  unfold output_format, add_hydrogens_call. cbn [output_paths properties].
  rewrite !lookup_insert_ne, lookup_singleton_eq by discriminate.
  rewrite (extension_app _ ".H.mol2" "mol2") by reflexivity.
  by rewrite decide_True.
Qed.

Lemma minimize_input_format i : input_format (minimize_call i) = Some "mol2".
Proof.
  unfold input_format, minimize_call. cbn [input_path properties].
  rewrite !lookup_insert_ne, lookup_singleton_ne by discriminate.
  by apply extension_app.
Qed.

Lemma minimize_output_format i : output_format (minimize_call i) = Some "pdb".
Proof.
  unfold output_format, minimize_call. cbn [output_paths properties].
  rewrite !lookup_insert_ne, lookup_singleton_ne by discriminate.
  by apply extension_app.
Qed.

Lemma generator_input_format v i :
  input_format (generator_call v i) = Some "pdb".
Proof.
  destruct v; unfold input_format, generator_call, acpype_gmx_call,
    acpype_cns_call; cbn [input_path properties];
    rewrite !lookup_insert_ne, lookup_singleton_ne by discriminate;
    by apply extension_app.
Qed.

(** C7. Between every two adjacent steps launched in a run, the format of
    the file the first writes (its extension, which the declared
    output_format agrees with) is the format the second takes its input to
    have (declared, else the extension): pdb from the fetcher to the
    hydrogen adder, mol2 from there to the minimizer, pdb from the minimizer
    to the parameter generator. *)
Theorem stage_formats_match v T i ns0 fs0 :
  adjacent format_compatible
           (launches (out (run_all (notebook v T i) ns0 fs0).2)) /\
  adjacent format_compatible (pipeline_calls v i) /\
  (output_format (fetch_call i) = Some "pdb" /\
   input_format (add_hydrogens_call i) = Some "pdb") /\
  (output_format (add_hydrogens_call i) = Some "mol2" /\
   input_format (minimize_call i) = Some "mol2") /\
  (output_format (minimize_call i) = Some "pdb" /\
   input_format (generator_call v i) = Some "pdb").
Proof.
  pose proof (fetch_output_format i). pose proof (add_hydrogens_input_format i).
  pose proof (add_hydrogens_output_format i). pose proof (minimize_input_format i).
  pose proof (minimize_output_format i). pose proof (generator_input_format v i).
  assert (Hall : adjacent format_compatible (pipeline_calls v i)).
  { unfold pipeline_calls, format_compatible. cbn [adjacent].
    repeat split; eauto. }
  split; [ | split; [ exact Hall | by repeat split ] ].
  rewrite run_launches.
  destruct Hall as (H01 & H12 & H23 & _).
  chain_cases; cbn [adjacent]; unfold pipeline_calls in *; by repeat split.
Qed.





(** How a chain ends, what it calls and what it writes do not depend on the
    files it starts from. *)
Lemma expected_independent_of_files v T i fs1 fs2 :
  s_status (expected v T i fs1) = s_status (expected v T i fs2) /\
  s_launches (expected v T i fs1) = s_launches (expected v T i fs2) /\
  s_creations (expected v T i fs1) = s_creations (expected v T i fs2).
Proof. chain_cases; by repeat split. Qed.

(** C9. Two runs on the same inputs with the same tools, from any two
    namespaces and working directories (the second may start where the
    first ended), stop the same way, make the same calls and write the same
    bytes to the same paths; when they complete, every file of the topology
    bundle exists and is identical in both. *)
Theorem rerun_reproduces_topology v T i ns1 fs1 ns2 fs2 :
  let r1 := run_all (notebook v T i) ns1 fs1 in
  let r2 := run_all (notebook v T i) ns2 fs2 in
  r1.1 = r2.1 /\
  launches (out r1.2) = launches (out r2.2) /\
  creations (out r1.2) = creations (out r2.2) /\
  match r1.1 with
  | Completed =>
      Forall (fun p => is_Some (fs r1.2 !! p) /\ fs r1.2 !! p = fs r2.2 !! p)
             (bundle_paths v (ligandCode i))
  | Halted _ _ => True
  end.
Proof.
  cbv zeta. rewrite !run_status, !run_launches, !run_creations, !run_fs.
  destruct (expected_independent_of_files v T i fs1 fs2) as (Hs & Hl & Hc).
  split; [ done | ]. split; [ done | ]. split; [ done | ]. clear Hs Hl Hc.
  chain_cases; try done; unfold bundle_paths.
  all: repeat (apply Forall_cons; split;
               [ file_lookup; split; [ by eexists | done ] | ]).
  all: apply Forall_nil_2.
Qed.

(** C10. In a completed run of the CNS notebook, <code>params.pdb holds the
    bytes of <code>.H.min.pdb, which are those the minimizer wrote; it is
    written last, by shutil.copyfile and by nothing else, and the parameter
    generator is not given its path; the minimized structure is written by
    the minimizer only. *)
Theorem cns_coordinates_are_copied T i ns0 fs0 :
  (run_all (notebook CNS T i) ns0 fs0).1 = Completed ->
  let r := run_all (notebook CNS T i) ns0 fs0 in
  let c := ligandCode i in
  exists b,
    fs r.2 !! (c +:+ "params.pdb") = Some b /\
    fs r.2 !! (c +:+ ".H.min.pdb") = Some b /\
    (ByBlock BabelMinimize, c +:+ ".H.min.pdb", b) ∈ creations (out r.2) /\
    last (creations (out r.2)) = Some (ByCopyfile, c +:+ "params.pdb", b) /\
    Forall (fun x : writer * string * content =>
              (x.1.2 = c +:+ "params.pdb" -> x.1.1 = ByCopyfile) /\
              (x.1.2 = c +:+ ".H.min.pdb" -> x.1.1 = ByBlock BabelMinimize))
           (creations (out r.2)) /\
    c +:+ "params.pdb" ∉ output_paths (generator_call CNS i).
Proof.
  cbv zeta. rewrite run_status, run_fs, run_creations.
  chain_cases; intros [=].
  all: eexists; split; [ by file_lookup | ]; split; [ by file_lookup | ].
  all: split; [ in_list | ]; split; [ reflexivity | ].
  all: split;
    [ repeat (apply Forall_cons; split;
              [ cbn [fst snd]; split; intros Heq;
                first [ reflexivity | by apply path_ne in Heq ] | ]);
      apply Forall_nil_2
    | unfold generator_call, acpype_cns_call; cbn [output_paths]; intros Hin;
      repeat (apply elem_of_cons in Hin as [Hin|Hin];
              [ by apply path_ne in Hin | ]);
      by apply elem_of_nil in Hin ].
Qed.

Lemma cns_coordinates_are_copied_witness :
  let r := run_all (notebook CNS toy_tools cns_defaults) ∅ ∅ in
  exists b,
    fs r.2 !! "G39params.pdb" = Some b /\
    fs r.2 !! "G39.H.min.pdb" = Some b /\
    (ByBlock BabelMinimize, "G39.H.min.pdb", b) ∈ creations (out r.2) /\
    last (creations (out r.2)) = Some (ByCopyfile, "G39params.pdb", b) /\
    Forall (fun x : writer * string * content =>
              (x.1.2 = "G39params.pdb" -> x.1.1 = ByCopyfile) /\
              (x.1.2 = "G39.H.min.pdb" -> x.1.1 = ByBlock BabelMinimize))
           (creations (out r.2)) /\
    "G39params.pdb" ∉ output_paths (generator_call CNS cns_defaults).
Proof.
  apply (cns_coordinates_are_copied toy_tools cns_defaults ∅ ∅).
  vm_compute. reflexivity.
Defined.

(** * Further properties of the notebooks *)

(** ** The Colab cells and the executed copy *)




(** ** The names a notebook binds *)

Section BindsOnly.

Variable N : list string.

Lemma binds_only_ret {A} (a : A) : binds_only N (ret a).
Proof. by intros k x _. Qed.

Lemma binds_only_raise {A} e : binds_only N (@raise A e).
Proof. by intros k x _. Qed.

Lemma binds_only_bind {A B} (m : nb A) (f : A -> nb B) :
  binds_only N m -> (forall a, binds_only N (f a)) -> binds_only N (bind m f).
Proof.
  intros Hm Hf k x Hx. specialize (Hm k x Hx). unfold bind.
  destruct (m k) as [[a|e] k1]; cbn [snd] in *; [|done].
  by rewrite (Hf a k1 x Hx).
Qed.




Lemma binds_only_name x : binds_only N (name x).
Proof. intros k y _. unfold name. by destruct (ns k !! x). Qed.

Lemma binds_only_name_str x : binds_only N (name_str x).
Proof.
  apply binds_only_bind; [apply binds_only_name|].
  intros []; auto using binds_only_ret, binds_only_raise.
Qed.

Lemma binds_only_name_dict x : binds_only N (name_dict x).
Proof.
  apply binds_only_bind; [apply binds_only_name|].
  intros []; auto using binds_only_ret, binds_only_raise.
Qed.

Lemma binds_only_name_widget x : binds_only N (name_widget x).
Proof.
  apply binds_only_bind; [apply binds_only_name|].
  intros []; auto using binds_only_ret, binds_only_raise.
Qed.

Lemma binds_only_add_str x suffix : binds_only N (add_str x suffix).
Proof.
  apply binds_only_bind; [apply binds_only_name_str|].
  intros s. apply binds_only_ret.
Qed.

Lemma binds_only_emit e : binds_only N (emit e).
Proof. by intros k y _. Qed.

Lemma binds_only_read_file p : binds_only N (read_file p).
Proof. intros k y _. unfold read_file. by destruct (fs k !! p). Qed.

Lemma binds_only_create w p b : binds_only N (create w p b).
Proof. by intros k y _. Qed.

Lemma binds_only_create_all w files : binds_only N (create_all w files).
Proof.
  induction files as [|[p b] files IH]; cbn [create_all];
    [ apply binds_only_ret | ].
  apply binds_only_bind; [ apply binds_only_create | by intros _ ].
Qed.

Lemma binds_only_show_structure_file p : binds_only N (show_structure_file p).
Proof. intros k y _. unfold show_structure_file. by destruct (fs k !! p). Qed.




Lemma binds_only_display x : binds_only N (display x).
Proof.
  apply binds_only_bind; [apply binds_only_name_widget|].
  intros w. apply binds_only_emit.
Qed.

Lemma binds_only_display_hbox x1 x2 x3 : binds_only N (display_hbox x1 x2 x3).
Proof.
  repeat (apply binds_only_bind; [apply binds_only_name_widget|intros ?]).
  apply binds_only_emit.
Qed.

Lemma binds_only_copyfile src dst : binds_only N (copyfile src dst).
Proof.
  unfold copyfile. destruct (decide (src = dst)); [apply binds_only_raise|].
  apply binds_only_bind; [apply binds_only_read_file|].
  intros b. apply binds_only_create.
Qed.

Lemma binds_only_ligand T p pr : binds_only N (ligand T p pr).
Proof.
  unfold ligand. cbv zeta. apply binds_only_bind; [apply binds_only_emit|].
  intros _. destruct (ligand_api T _);
    auto using binds_only_create, binds_only_raise.
Qed.

Lemma binds_only_babel_add_hydrogens T ip op pr :
  binds_only N (babel_add_hydrogens T ip op pr).
Proof.
  unfold babel_add_hydrogens. cbv zeta.
  apply binds_only_bind; [apply binds_only_emit|]. intros _.
  apply binds_only_bind; [apply binds_only_read_file|]. intros src.
  destruct (obabel_add_hydrogens T _ src);
    auto using binds_only_create, binds_only_raise.
Qed.

Lemma binds_only_babel_minimize T ip op pr :
  binds_only N (babel_minimize T ip op pr).
Proof.
  unfold babel_minimize. cbv zeta.
  apply binds_only_bind; [apply binds_only_emit|]. intros _.
  apply binds_only_bind; [apply binds_only_read_file|]. intros src.
  destruct (obminimize T _ src);
    auto using binds_only_create, binds_only_raise.
Qed.

Lemma binds_only_acpype_params_gmx T ip g t p pr :
  binds_only N (acpype_params_gmx T ip g t p pr).
Proof.
  unfold acpype_params_gmx. cbv zeta.
  apply binds_only_bind; [apply binds_only_emit|]. intros _.
  apply binds_only_bind; [apply binds_only_read_file|]. intros src.
  destruct (acpype_gmx T _ src);
    auto using binds_only_create_all, binds_only_raise.
Qed.

Lemma binds_only_acpype_params_cns T ip a q p pr :
  binds_only N (acpype_params_cns T ip a q p pr).
Proof.
  unfold acpype_params_cns. cbv zeta.
  apply binds_only_bind; [apply binds_only_emit|]. intros _.
  apply binds_only_bind; [apply binds_only_read_file|]. intros src.
  destruct (acpype_cns T _ src);
    auto using binds_only_create_all, binds_only_raise.
Qed.



End BindsOnly.

Create HintDb binds_db.
#[local] Hint Resolve binds_only_ret binds_only_raise
  binds_only_name binds_only_name_str binds_only_name_dict
  binds_only_name_widget binds_only_add_str binds_only_emit
  binds_only_read_file binds_only_create binds_only_show_structure_file
  binds_only_display binds_only_display_hbox binds_only_copyfile
  binds_only_ligand binds_only_babel_add_hydrogens binds_only_babel_minimize
  binds_only_acpype_params_gmx binds_only_acpype_params_cns : binds_db.









(** ** The files a run reads *)



(** ** Cells run out of order *)






Lemma name_str_unbound x vs fl lg :
  vs !! x = None ->
  name_str x (Kernel vs fl lg) = (Exc (NameError x), Kernel vs fl lg).
Proof. intros H. unfold name_str, bind, name. cbn [ns]. by rewrite H. Qed.

(** A step of a cell that goes through. *)
Ltac step_ok := eapply bind_step; [ prim | cbv beta iota ].

(** The step that reads an unbound name. *)
Ltac step_unbound H :=
  eapply bind_step;
  [ apply name_str_unbound; rewrite !lookup_insert_ne by discriminate; exact H
  | reflexivity ].

(** X8. Right after the input cell, a pipeline step whose predecessor was
    skipped stops with NameError on the variable the predecessor would have
    bound (input_structure, output_babel_h, output_babel_min), before any
    tool is launched and without touching a file. *)
Theorem skipped_step_is_a_name_error T i k0 :
  ns k0 !! "input_structure" = None ->
  ns k0 !! "output_babel_h" = None ->
  ns k0 !! "output_babel_min" = None ->
  let k := (cell_inputs i k0).2 in
  (exists k', cell_add_hydrogens T k = (Exc (NameError "input_structure"), k')
              /\ fs k' = fs k0 /\ out k' = out k0) /\
  (exists k', cell_minimize T k = (Exc (NameError "output_babel_h"), k')
              /\ fs k' = fs k0 /\ out k' = out k0) /\
  (exists k', cell_acpype_gmx T k = (Exc (NameError "output_babel_min"), k')
              /\ fs k' = fs k0 /\ out k' = out k0) /\
  (exists k', cell_acpype_cns T k = (Exc (NameError "output_babel_min"), k')
              /\ fs k' = fs k0 /\ out k' = out k0).
Proof.
  destruct k0 as [vs fl lg]. cbn [ns fs out]. intros H1 H2 H3. cbv zeta.
  change (cell_inputs i (Kernel vs fl lg)).2 with
    (Kernel (<["pH" := VFloat (pH i)]>
               (<["mol_charge" := VInt (mol_charge i)]>
                  (<["ligandCode" := VStr (ligandCode i)]>
                     (<["os" := VImported "os"]>
                        (<["ipywidgets" := VImported "ipywidgets"]>
                           (<["nglview" := VImported "nglview"]> vs))))))
            fl lg).
  repeat split.
  - eexists. split; [ unfold cell_add_hydrogens; do 6 step_ok; step_unbound H1 | ].
    split; reflexivity.
  - eexists. split; [ unfold cell_minimize; do 5 step_ok; step_unbound H2 | ].
    split; reflexivity.
  - eexists. split; [ unfold cell_acpype_gmx; do 13 step_ok; step_unbound H3 | ].
    split; reflexivity.
  - eexists. split; [ unfold cell_acpype_cns; do 16 step_ok; step_unbound H3 | ].
    split; reflexivity.
Qed.

Lemma skipped_step_is_a_name_error_witness :
  let k0 := Kernel ∅ ∅ [] in
  let k := (cell_inputs gmx_defaults k0).2 in
  (exists k', cell_add_hydrogens toy_tools k
              = (Exc (NameError "input_structure"), k')
              /\ fs k' = fs k0 /\ out k' = out k0) /\
  (exists k', cell_minimize toy_tools k
              = (Exc (NameError "output_babel_h"), k')
              /\ fs k' = fs k0 /\ out k' = out k0) /\
  (exists k', cell_acpype_gmx toy_tools k
              = (Exc (NameError "output_babel_min"), k')
              /\ fs k' = fs k0 /\ out k' = out k0) /\
  (exists k', cell_acpype_cns toy_tools k
              = (Exc (NameError "output_babel_min"), k')
              /\ fs k' = fs k0 /\ out k' = out k0).
Proof.
  apply (skipped_step_is_a_name_error toy_tools gmx_defaults (Kernel ∅ ∅ []));
    reflexivity.
Defined.

(** ** What a completed run shows and binds *)

(** The kernel of the whole notebook is the kernel the cells from the input
    cell on leave, started from what the Colab cells bound. *)
Lemma run_kernel_from_inputs v T i ns0 fs0 :
  match v with GMX => setup_status T = Completed | CNS => True end ->
  exists ns1,
    (run_all (notebook v T i) ns0 fs0).2 =
    (run_from (first_cell v) (pipeline_cells v T i) (Kernel ns1 fs0 [])).2.
Proof.
  intros Hs. destruct v; [ | by exists ns0 ].
  unfold run_all, notebook.
  change (gmx_notebook T i) with (setup_cells T ++ pipeline_cells GMX T i).
  rewrite run_from_app. destruct (setup_run T ns0 fs0 []) as [vs ->].
  rewrite Hs. by exists vs.
Qed.

(** What made a run complete. *)
Lemma completed_inv v T i ns0 fs0 :
  (run_all (notebook v T i) ns0 fs0).1 = Completed ->
  match v with GMX => setup_status T = Completed | CNS => True end /\
  exists b1 b2 b3,
    ligand_api T (fetch_call i) = Some b1 /\
    obabel_add_hydrogens T (add_hydrogens_call i) b1 = Some b2 /\
    obminimize T (minimize_call i) b2 = Some b3 /\
    match v with
    | GMX => exists g, acpype_gmx T (acpype_gmx_call i) b3 = Some g
    | CNS => exists g, acpype_cns T (acpype_cns_call i) b3 = Some g
    end.
Proof.
  rewrite run_status.
  unfold expected, chain; cbv zeta; repeat case_match;
    cbn [s_status]; intros [=]; (split; [ done | ]); do 3 eexists;
    repeat (split; [ first [ reflexivity | eassumption ] | ]); by eexists.
Qed.

Lemma completed_kernel v n T i ns0 fs0 b1 b2 b3 :
  ligand_api T (fetch_call i) = Some b1 ->
  obabel_add_hydrogens T (add_hydrogens_call i) b1 = Some b2 ->
  obminimize T (minimize_call i) b2 = Some b3 ->
  match v with
  | GMX => exists g, acpype_gmx T (acpype_gmx_call i) b3 = Some g
  | CNS => exists g, acpype_cns T (acpype_cns_call i) b3 = Some g
  end ->
  shows_and_binds v i (run_from n (pipeline_cells v T i) (Kernel ns0 fs0 [])).2.
Proof.
  intros H1 H2 H3 H4.
  destruct v; destruct H4 as [g H4];
    unfold pipeline_cells, web_notebook, gmx_notebook, cns_notebook;
    cbn [drop]; run_leaf; unfold shows_and_binds, path_variables, last_shown,
      generator_call, acpype_gmx_call, acpype_cns_call;
    cbn [run_from snd ns fs out app properties]; cbv zeta.
  all: split;
    [ do 4 eexists; do 4 (split; [ by file_lookup | ]);
      split_order; reflexivity | ].
  all: split;
    [ split_order;
      repeat first [ apply Forall_nil_2 | apply Forall_cons; split ];
      by split | ].
  all: split;
    [ repeat (apply Forall_cons; split;
              [ cbn [fst snd]; split;
                [ look_name | file_lookup; by eexists ] | ]);
      apply Forall_nil_2 | ].
  all: repeat split; look_name.
Qed.

(** X9. In a completed run the five visualization cells display, in the
    order of the cells, the fetched, the hydrogenated and the minimized
    structure, the three side by side, and the last file of the notebook;
    each widget shows the bytes its file holds when the run ends, with the
    orthographic camera and the ball+stick representation. *)
Theorem displays_show_the_files_written v T i ns0 fs0 :
  (run_all (notebook v T i) ns0 fs0).1 = Completed ->
  let k := (run_all (notebook v T i) ns0 fs0).2 in
  let c := ligandCode i in
  (exists b1 b2 b3 b4,
     fs k !! (c +:+ ".pdb") = Some b1 /\
     fs k !! (c +:+ ".H.mol2") = Some b2 /\
     fs k !! (c +:+ ".H.min.pdb") = Some b3 /\
     fs k !! last_shown v c = Some b4 /\
     (fun ws : list widget => shown <$> ws) <$> displays (out k) =
       [ [(c +:+ ".pdb", b1)]; [(c +:+ ".H.mol2", b2)];
         [(c +:+ ".H.min.pdb", b3)];
         [(c +:+ ".pdb", b1); (c +:+ ".H.mol2", b2); (c +:+ ".H.min.pdb", b3)];
         [(last_shown v c, b4)] ]) /\
  Forall (Forall (fun w => w_camera w = "orthographic" /\
                           (fun x : string * option string => x.1)
                             <$> w_reprs w = ["ball+stick"]))
         (displays (out k)).
Proof.
  intros Hc. cbv zeta.
  destruct (completed_inv v T i ns0 fs0 Hc) as (Hs & b1 & b2 & b3 & H1 & H2 & H3 & H4).
  destruct (run_kernel_from_inputs v T i ns0 fs0 Hs) as [ns1 ->].
  destruct (completed_kernel v (first_cell v) T i ns1 fs0 b1 b2 b3 H1 H2 H3 H4)
    as (Hshow & Hcam & _).
  by split.
Qed.

Lemma displays_show_the_files_written_witness :
  let k := (run_all (notebook CNS toy_tools cns_defaults) ∅ ∅).2 in
  let c := ligandCode cns_defaults in
  (exists b1 b2 b3 b4,
     fs k !! (c +:+ ".pdb") = Some b1 /\
     fs k !! (c +:+ ".H.mol2") = Some b2 /\
     fs k !! (c +:+ ".H.min.pdb") = Some b3 /\
     fs k !! last_shown CNS c = Some b4 /\
     (fun ws : list widget => shown <$> ws) <$> displays (out k) =
       [ [(c +:+ ".pdb", b1)]; [(c +:+ ".H.mol2", b2)];
         [(c +:+ ".H.min.pdb", b3)];
         [(c +:+ ".pdb", b1); (c +:+ ".H.mol2", b2); (c +:+ ".H.min.pdb", b3)];
         [(last_shown CNS c, b4)] ]) /\
  Forall (Forall (fun w => w_camera w = "orthographic" /\
                           (fun x : string * option string => x.1)
                             <$> w_reprs w = ["ball+stick"]))
         (displays (out k)).
Proof.
  apply (displays_show_the_files_written CNS toy_tools cns_defaults ∅ ∅).
  vm_compute. reflexivity.
Defined.

(** X10. When a run completes, every variable that holds a path is bound to
    the path its cell computed from the ligand code and names a file that
    exists; output_acpype holds the basename, prop holds the options of the
    last call (the parameter generator's), and the three inputs hold what
    the input cell set. *)
Theorem completed_run_bindings v T i ns0 fs0 :
  (run_all (notebook v T i) ns0 fs0).1 = Completed ->
  let k := (run_all (notebook v T i) ns0 fs0).2 in
  let c := ligandCode i in
  Forall (fun xp => ns k !! xp.1 = Some (VStr xp.2) /\ is_Some (fs k !! xp.2))
         (path_variables v c) /\
  ns k !! "output_acpype" = Some (VStr (c +:+ "params")) /\
  ns k !! "prop" = Some (VDict (properties (generator_call v i))) /\
  ns k !! "ligandCode" = Some (VStr c) /\
  ns k !! "mol_charge" = Some (VInt (mol_charge i)) /\
  ns k !! "pH" = Some (VFloat (pH i)).
Proof.
  intros Hc. cbv zeta.
  destruct (completed_inv v T i ns0 fs0 Hc) as (Hs & b1 & b2 & b3 & H1 & H2 & H3 & H4).
  destruct (run_kernel_from_inputs v T i ns0 fs0 Hs) as [ns1 ->].
  by destruct (completed_kernel v (first_cell v) T i ns1 fs0 b1 b2 b3 H1 H2 H3 H4)
    as (_ & _ & Hb).
Qed.

Lemma completed_run_bindings_witness :
  let k := (run_all (notebook GMX toy_tools gmx_defaults) ∅ ∅).2 in
  let c := ligandCode gmx_defaults in
  Forall (fun xp => ns k !! xp.1 = Some (VStr xp.2) /\ is_Some (fs k !! xp.2))
         (path_variables GMX c) /\
  ns k !! "output_acpype" = Some (VStr (c +:+ "params")) /\
  ns k !! "prop" = Some (VDict (properties (generator_call GMX gmx_defaults))) /\
  ns k !! "ligandCode" = Some (VStr c) /\
  ns k !! "mol_charge" = Some (VInt (mol_charge gmx_defaults)) /\
  ns k !! "pH" = Some (VFloat (pH gmx_defaults)).
Proof.
  apply (completed_run_bindings GMX toy_tools gmx_defaults ∅ ∅).
  vm_compute. reflexivity.
Defined.

(** ** The names a stopped run has bound *)




